(** * AdaptNLP: the callback pipeline of the translation facade

    A shallow embedding of [adaptnlp/callback.py], [adaptnlp/model.py] and
    [adaptnlp/translation.py].  Python objects that are mutated in place
    (the class-level learner of [AdaptiveModel], its callback list, the
    translator registry of [EasyTranslator]) live in an explicit store that
    every operation threads; exceptions are outcomes of a small state and
    error monad, and a raise keeps the store as it was at the raise. *)

From Stdlib Require Import ZArith.
From stdpp Require Import gmap strings list fin_maps pretty sorting.

Local Open Scope string_scope.
Local Open Scope Z_scope.

(** ** Values *)

(** Token tensors of rank 0, 1 and 2; a batch of [b] sequences is a [Mat]
    of [b] rows. *)
Inductive Tensor :=
| Scalar (z : Z)
| Vec (v : list Z)
| Mat (rows : list (list Z)).

(** [Tensor.squeeze(0)]: drops the first dimension when its size is 1. *)
Definition squeeze0 (t : Tensor) : Tensor :=
  match t with
  | Mat [r] => Vec r
  | Vec [z] => Scalar z
  | _ => t
  end.

(** The pretrained objects are handles; what they compute is given by the
    [Transformers] interface below.  [isinstance] tests are matches on the
    constructor. *)
Inductive Model :=
| _NoopModel
| T5ForConditionalGeneration (name : string)
| PreTrainedModel (name : string).

Inductive Tokenizer :=
| PreTrainedTokenizer (name : string).

Inductive Exception :=
| ValueError (msg : string)
| NotImplementedError
| TypeError
| IndexError
| KeyError (k : string)
| AttributeError (attr : string)
| CancelBatchException
| ExternalError (msg : string).

Inductive Outcome (A : Type) :=
| Return (a : A)
| Raise (e : Exception).
Arguments Return {A} a.
Arguments Raise {A} e.

(** The parameters of one generation call: the attributes that
    [GeneratorCallback.__init__] stores. *)
Record GenerationRequest := {
  num_beams : Z;
  min_length : Z;
  max_length : Z;
  early_stopping : bool;
  kwargs : list (string * Z)
}.

(** A Python [dict] with string keys, in insertion order. *)
Definition Inputs := list (string * Tensor).

Fixpoint dict_get (d : Inputs) (k : string) : option Tensor :=
  match d with
  | [] => None
  | (k', v) :: d' => if String.eqb k' k then Some v else dict_get d' k
  end.

(** [d[k] = v]: overwrites in place, or appends a new key at the end. *)
Fixpoint dict_set (d : Inputs) (k : string) (v : Tensor) : Inputs :=
  match d with
  | [] => [(k, v)]
  | (k', v') :: d' =>
      if String.eqb k' k then (k', v) :: d' else (k', v') :: dict_set d' k v
  end.

Definition dict_keys (d : Inputs) : list string := d.*1.
Definition dict_values (d : Inputs) : list Tensor := d.*2.

(** [self.learn.xb]: a tuple of tensors as the loop sets it, or whatever a
    callback has replaced it with. *)
Inductive Xb :=
| XbTuple (ts : list Tensor)
| XbDict (d : Inputs).

Definition xb_len (x : Xb) : nat :=
  match x with
  | XbTuple ts => length ts
  | XbDict d => length d
  end.

(** [xb[i]] for an integer [i]. *)
Definition xb_index (x : Xb) (i : nat) : Outcome Tensor :=
  match x with
  | XbTuple ts => match ts !! i with Some t => Return t | None => Raise IndexError end
  | XbDict _ => Raise (KeyError (pretty i))
  end.

(** [xb[k]] for a string [k]. *)
Definition xb_item (x : Xb) (k : string) : Outcome Tensor :=
  match x with
  | XbTuple _ => Raise TypeError
  | XbDict d => match dict_get d k with Some t => Return t | None => Raise (KeyError k) end
  end.

(** ** Callbacks *)

Inductive Callback :=
| CudaCallback
| SetInputsCallback (as_dict : bool)
| GatherInputsCallback
| GeneratorCallback (req : GenerationRequest)
| GatherPredsCallback.

(** [SetInputsCallback.__init__(self, as_dict=False)]; [None] is the call
    that leaves the argument out. *)
Definition SetInputsCallback_init (as_dict : option bool) : Callback :=
  SetInputsCallback (default false as_dict).

(** Modelled from the spec: the base class [Callback] of the learner
    engine is not under the source tree; a callback that declares no
    [order] inherits the one of the base class, which places it after the
    hooks with a negative priority. *)
Definition Callback_order : Z := 0.

Definition order (cb : Callback) : Z :=
  match cb with
  | GatherInputsCallback => -3
  | SetInputsCallback _ => -1
  | CudaCallback | GeneratorCallback _ | GatherPredsCallback => Callback_order
  end.

(** The engine runs the hooks of an event over [cbs.sorted('order')], a
    stable sort: smaller [order] first, ties in registration order. *)
Fixpoint insert_by_order (cb : Callback) (l : list Callback) : list Callback :=
  match l with
  | [] => [cb]
  | c :: l' => if order cb <=? order c then cb :: l else c :: insert_by_order cb l'
  end.

Definition sorted (l : list Callback) : list Callback :=
  foldr insert_by_order [] l.

Definition by_order (c1 c2 : Callback) : Prop := order c1 <= order c2.

(** ** The store *)

(** The calls made to the external collaborators, latest first. *)
Inductive Event :=
| EvTokenize (tok : Tokenizer) (texts : list string)
| EvGenerate (m : Model) (input_ids attention_mask : Tensor) (req : GenerationRequest)
| EvForward (m : Model) (x : Xb)
| EvDecode (tok : Tokenizer) (o : Tensor)
| EvInit (tok : Tokenizer) (m : Model).

(** The one [_BaseLearner] bound to the class attribute
    [AdaptiveModel._learn], with the [Learner] it wraps. *)
Record World := {
  learn_model : Model;             (* self.__learner.model *)
  learn_cbs : list Callback;       (* _BaseLearner.__cbs, registered in the Learner *)
  learn_n_inp : option nat;        (* self.learn.dls.n_inp *)
  learn_xb : Xb;                   (* self.learn.xb *)
  learn_inputs : option Inputs;    (* self.learn.inputs *)
  learn_pred : option Tensor;      (* self.learn.pred *)
  trace : list Event
}.

Definition M (A : Type) : Type := World -> Outcome A * World.

Definition ret {A} (a : A) : M A := fun w => (Return a, w).
Definition raise {A} (e : Exception) : M A := fun w => (Raise e, w).
Definition bind {A B} (c : M A) (k : A -> M B) : M B :=
  fun w =>
    match c w with
    | (Return a, w') => k a w'
    | (Raise e, w') => (Raise e, w')
    end.
Definition lift {A} (o : Outcome A) : M A := fun w => (o, w).
Definition get : M World := fun w => (Return w, w).
Definition modify (f : World -> World) : M unit := fun w => (Return tt, f w).

Notation "'let*' x ':=' c 'in' k" := (bind c (fun x => k))
  (at level 10, x name, c at level 100, k at level 200).
Notation "c ';;' k" := (bind c (fun _ => k))
  (at level 100, k at level 200, right associativity).

Definition set_xb (x : Xb) (w : World) : World :=
  {| learn_model := learn_model w; learn_cbs := learn_cbs w;
     learn_n_inp := learn_n_inp w; learn_xb := x;
     learn_inputs := learn_inputs w; learn_pred := learn_pred w;
     trace := trace w |}.

Definition set_inputs (d : Inputs) (w : World) : World :=
  {| learn_model := learn_model w; learn_cbs := learn_cbs w;
     learn_n_inp := learn_n_inp w; learn_xb := learn_xb w;
     learn_inputs := Some d; learn_pred := learn_pred w;
     trace := trace w |}.

Definition set_pred (p : Tensor) (w : World) : World :=
  {| learn_model := learn_model w; learn_cbs := learn_cbs w;
     learn_n_inp := learn_n_inp w; learn_xb := learn_xb w;
     learn_inputs := learn_inputs w; learn_pred := Some p;
     trace := trace w |}.

Definition set_n_inp (n : nat) (w : World) : World :=
  {| learn_model := learn_model w; learn_cbs := learn_cbs w;
     learn_n_inp := Some n; learn_xb := learn_xb w;
     learn_inputs := learn_inputs w; learn_pred := learn_pred w;
     trace := trace w |}.

Definition set_learn_model (m : Model) (w : World) : World :=
  {| learn_model := m; learn_cbs := learn_cbs w;
     learn_n_inp := learn_n_inp w; learn_xb := learn_xb w;
     learn_inputs := learn_inputs w; learn_pred := learn_pred w;
     trace := trace w |}.

Definition set_learn_cbs (cbs : list Callback) (w : World) : World :=
  {| learn_model := learn_model w; learn_cbs := cbs;
     learn_n_inp := learn_n_inp w; learn_xb := learn_xb w;
     learn_inputs := learn_inputs w; learn_pred := learn_pred w;
     trace := trace w |}.

Definition record (e : Event) (w : World) : World :=
  {| learn_model := learn_model w; learn_cbs := learn_cbs w;
     learn_n_inp := learn_n_inp w; learn_xb := learn_xb w;
     learn_inputs := learn_inputs w; learn_pred := learn_pred w;
     trace := e :: trace w |}.

(** ** callback.py *)

(** [GatherInputsCallback.before_batch] *)
Definition GatherInputsCallback_before_batch : M unit :=
  let* w := get in
  let* t0 := lift (xb_index (learn_xb w) 0) in
  let* t1 := lift (xb_index (learn_xb w) 1) in
  let inputs := [("input_ids", t0); ("attention_mask", t1)] in
  let* inputs :=
    if (2 <? xb_len (learn_xb w))%nat
    then let* t2 := lift (xb_index (learn_xb w) 2) in
         ret (dict_set inputs "token_type_ids" t2)
    else ret inputs in
  modify (set_inputs inputs).

(** [SetInputsCallback.before_batch] *)
Definition SetInputsCallback_before_batch (as_dict : bool) : M unit :=
  let* w := get in
  match learn_inputs w with
  | None => raise (AttributeError "inputs")
  | Some inputs =>
      if negb as_dict
      then modify (set_xb (XbTuple (dict_values inputs)))
      else modify (set_xb (XbDict inputs))
  end.

(** ** The pretrained-model library

    What the tokenizer and model objects compute.  A tokenizer encodes each
    text on its own into a padded row of ids and a row of mask bits;
    [generate] and the [from_pretrained] constructors can raise. *)
Class Transformers := {
  AutoTokenizer_from_pretrained : string -> Outcome Tokenizer;
  AutoModelForSeq2SeqLM_from_pretrained : string -> Outcome Model;
  encode_plus : Tokenizer -> string -> list Z * list Z;
  generate : Model -> Tensor -> Tensor -> GenerationRequest -> Outcome Tensor;
  decode : Tokenizer -> Tensor -> string;
  forward : Model -> Xb -> Outcome Tensor
}.

Section Pipeline.
Context {hf : Transformers}.

(** [GeneratorCallback.before_batch]: the attribute [generate] is looked
    up on the learner's model, then the two items of [xb], then the call;
    the placeholder model has no such attribute. *)
Definition GeneratorCallback_before_batch (self : GenerationRequest) : M unit :=
  let* w := get in
  match learn_model w with
  | _NoopModel => raise (AttributeError "generate")
  | m =>
      let* input_ids := lift (xb_item (learn_xb w) "input_ids") in
      let* attention_mask := lift (xb_item (learn_xb w) "attention_mask") in
      modify (record (EvGenerate m input_ids attention_mask self)) ;;
      let* pred := lift (generate m input_ids attention_mask self) in
      modify (set_pred pred) ;;
      raise CancelBatchException
  end.

(** ** The learner engine

    Modelled from the spec: the [Learner] of the engine is not under the
    source tree.  It runs every batch of the loader through the hooks of
    the batch stage in priority order, lets a hook abort the rest of the
    stage, and gathers the prediction left on the learner after each
    batch, in loader order.  [model.py] patches the gathering callback's
    [after_validate] to do nothing, so the gathered predictions stay a
    list with one tensor per batch. *)

Definition before_batch (cb : Callback) : M unit :=
  match cb with
  | SetInputsCallback as_dict => SetInputsCallback_before_batch as_dict
  | GatherInputsCallback => GatherInputsCallback_before_batch
  | GeneratorCallback req => GeneratorCallback_before_batch req
  | CudaCallback | GatherPredsCallback => ret tt
  end.

Fixpoint run_hooks (hook : Callback -> M unit) (cbs : list Callback) : M unit :=
  match cbs with
  | [] => ret tt
  | cb :: cbs' => hook cb ;; run_hooks hook cbs'
  end.

(** The default computation of a batch: [self.pred] becomes the model
    applied to the items of [self.xb]. *)
Definition _do_one_batch : M unit :=
  let* w := get in
  modify (record (EvForward (learn_model w) (learn_xb w))) ;;
  let* pred := lift (forward (learn_model w) (learn_xb w)) in
  modify (set_pred pred).

(** [except CancelBatchException]: the stage ends, the loop goes on. *)
Definition with_cancel_batch (c : M unit) : M unit :=
  fun w =>
    match c w with
    | (Raise CancelBatchException, w') => (Return tt, w')
    | r => r
    end.

Definition Learner_one_batch (cbs : list Callback) (b : list Tensor) : M unit :=
  let* w := get in
  let i := default (if (length b =? 1)%nat then 1%nat else (length b - 1)%nat)
                   (learn_n_inp w) in
  modify (set_xb (XbTuple (take i b))) ;;
  with_cancel_batch (run_hooks before_batch (sorted cbs) ;; _do_one_batch).

(** [GatherPredsCallback.after_batch] appends the learner's [pred]. *)
Definition gather (preds : list Tensor) (w : World) : list Tensor :=
  match learn_pred w with
  | Some p => (preds ++ [p])%list
  | None => preds
  end.

Fixpoint Learner_all_batches (cbs : list Callback) (dl : list (list Tensor))
    (preds : list Tensor) : M (list Tensor) :=
  match dl with
  | [] => ret preds
  | b :: dl' =>
      Learner_one_batch cbs b ;;
      let* w := get in
      Learner_all_batches cbs dl' (gather preds w)
  end.

(** [one_batch], patched onto the loader in [model.py]: [first(self)]. *)
Definition one_batch (dl : list (list Tensor)) : option (list Tensor) := head dl.

(** [GatherInputsCallback.before_validate]; [len(None)] is a [TypeError]. *)
Definition GatherInputsCallback_before_validate (dl : list (list Tensor)) : M unit :=
  match one_batch dl with
  | Some x => modify (set_n_inp (length x))
  | None => raise TypeError
  end.

Definition before_validate (dl : list (list Tensor)) (cb : Callback) : M unit :=
  match cb with
  | GatherInputsCallback => GatherInputsCallback_before_validate dl
  | _ => ret tt
  end.

(** [Learner.get_preds(dl=dl, cbs=cbs)]; of the pair it returns only the
    predictions are read in this repository, the targets are left out. *)
Definition Learner_get_preds (dl : list (list Tensor)) (cbs : list Callback)
    : M (list Tensor) :=
  let* w := get in
  let cbs := (learn_cbs w ++ cbs ++ [GatherPredsCallback])%list in
  run_hooks (before_validate dl) (sorted cbs) ;;
  Learner_all_batches cbs dl [].

(** ** model.py *)

(** [_BaseLearner.__cbs] *)
Definition _BaseLearner__cbs : list Callback :=
  [CudaCallback; SetInputsCallback_init None; GatherInputsCallback].

(** [_BaseLearner.__init__], run once for the class attribute
    [AdaptiveModel._learn]. *)
Definition _BaseLearner_init : World :=
  {| learn_model := _NoopModel; learn_cbs := _BaseLearner__cbs;
     learn_n_inp := None; learn_xb := XbTuple [];
     learn_inputs := None; learn_pred := None; trace := [] |}.

Definition _BaseLearner_get_preds (dl : option (list (list Tensor)))
    (cbs : list Callback) : M (list Tensor) :=
  match dl with
  | None => raise (ValueError "`dl` should not be `None`")
  | Some dl =>
      let* w := get in
      match learn_model w with
      | _NoopModel =>
          raise (ValueError "The default model is still set, you should override this with `_BaseLearner.set_model(x)`")
      | _ => Learner_get_preds dl cbs
      end
  end.

Definition _BaseLearner_set_as_dict (as_dict : bool) : M unit :=
  modify (fun w =>
    set_learn_cbs
      (map (fun cb => match cb with
                      | SetInputsCallback _ => SetInputsCallback as_dict
                      | _ => cb
                      end) (learn_cbs w)) w).

Definition _BaseLearner_set_model (model : Model) : M unit :=
  modify (set_learn_model model).

(** ** translation.py *)

(** An instance of the facade: its own attributes.  [_learn] is not one of
    them: it is the class attribute, the store. *)
Record TransformersTranslator := {
  tokenizer : Tokenizer;
  model : Model
}.

(** [AdaptiveModel.set_model]: returns the instance with [self.model] set. *)
Definition AdaptiveModel_set_model (self : TransformersTranslator) (m : Model)
    : M TransformersTranslator :=
  _BaseLearner_set_model m ;;
  ret {| tokenizer := tokenizer self; model := m |}.

Definition AdaptiveModel_set_as_dict (self : TransformersTranslator) (as_dict : bool)
    : M unit :=
  _BaseLearner_set_as_dict as_dict.

Definition AdaptiveModel_get_preds (self : TransformersTranslator)
    (dl : option (list (list Tensor))) (cbs : list Callback) : M (list Tensor) :=
  _BaseLearner_get_preds dl cbs.

(** [TransformersTranslator.__init__] *)
Definition TransformersTranslator_init (tok : Tokenizer) (m : Model)
    : M TransformersTranslator :=
  modify (record (EvInit tok m)) ;;
  let self := {| tokenizer := tok; model := m |} in
  let* self := AdaptiveModel_set_model self m in
  AdaptiveModel_set_as_dict self true ;;
  ret self.

(** [TransformersTranslator.load] *)
Definition TransformersTranslator_load (model_name_or_path : string)
    : M TransformersTranslator :=
  let* tok := lift (AutoTokenizer_from_pretrained model_name_or_path) in
  let* m := lift (AutoModelForSeq2SeqLM_from_pretrained model_name_or_path) in
  TransformersTranslator_init tok m.

(** [TransformersTranslator._tokenize]: the dataset holds one sample, a
    row of ids and a row of mask bits, per text. *)
Definition _tokenize (self : TransformersTranslator) (text : list string)
    : M (list (list Z * list Z)) :=
  modify (record (EvTokenize (tokenizer self) text)) ;;
  ret (map (encode_plus (tokenizer self)) text).

(** The batches a [torch] [DataLoader] yields over a dataset, in order: a
    row joins the current batch, a full batch is yielded, and a last
    partial batch is kept. *)
Fixpoint batch_sampler {A} (batch_size : nat) (batch : list A) (l : list A)
    : list (list A) :=
  match l with
  | [] => match batch with [] => [] | _ => [batch] end
  | x :: l' =>
      let batch := (batch ++ [x])%list in
      if (length batch =? batch_size)%nat
      then batch :: batch_sampler batch_size [] l'
      else batch_sampler batch_size batch l'
  end.

(** The default collation of a batch of [TensorDataset] samples: one
    stacked tensor per field. *)
Definition collate (b : list (list Z * list Z)) : list Tensor :=
  [Mat b.*1; Mat b.*2].

Definition DataLoader (dataset : list (list Z * list Z)) (batch_size : Z)
    : Outcome (list (list Tensor)) :=
  if batch_size <=? 0
  then Raise (ValueError "batch_size should be a positive integer value")
  else Return (map collate (batch_sampler (Z.to_nat batch_size) [] dataset)).

(** The [text] argument of [predict]: a string or a list of strings. *)
Inductive Text :=
| Str (s : string)
| Strs (l : list string).

(** The loop over [preds] at the end of [predict]. *)
Fixpoint decode_all (tok : Tokenizer) (preds : list Tensor) (translations : list string)
    : M (list string) :=
  match preds with
  | [] => ret translations
  | o :: preds' =>
      modify (record (EvDecode tok o)) ;;
      decode_all tok preds' (translations ++ [decode tok o])%list
  end.

(** [TransformersTranslator.predict] *)
Definition TransformersTranslator_predict (self : TransformersTranslator)
    (text : Text) (t5_prefix : string) (mini_batch_size : Z)
    (num_beams min_length max_length : Z) (early_stopping : bool)
    (kwargs : list (string * Z)) : M (list string) :=
  let text := match text with Str s => [s] | Strs l => l end in
  let text := match model self with
              | T5ForConditionalGeneration _ =>
                  map (fun t => (t5_prefix ++ ": " ++ t)%string) text
              | _ => text
              end in
  let* dataset := _tokenize self text in
  let* dl := lift (DataLoader dataset mini_batch_size) in
  let cb := GeneratorCallback
              {| num_beams := num_beams; min_length := min_length;
                 max_length := max_length; early_stopping := early_stopping;
                 kwargs := kwargs |} in
  let* preds := AdaptiveModel_get_preds self (Some dl) [cb] in
  let preds := map squeeze0 preds in
  decode_all (tokenizer self) preds [].

Definition TransformersTranslator_train (self : TransformersTranslator) : M unit :=
  raise NotImplementedError.

Definition TransformersTranslator_evaluate (self : TransformersTranslator) : M unit :=
  raise NotImplementedError.

(** [EasyTranslator]: [self.translators] is a [defaultdict(bool)]; an entry
    is [False] ([None] here) or a translator. *)
Record EasyTranslator := {
  translators : gmap string (option TransformersTranslator)
}.

Definition EasyTranslator_init : EasyTranslator := {| translators := ∅ |}.

(** Reading [d[k]] on the [defaultdict]: a missing key is first bound to
    [False]. *)
Definition defaultdict_getitem (d : gmap string (option TransformersTranslator))
    (k : string)
    : option TransformersTranslator * gmap string (option TransformersTranslator) :=
  match d !! k with
  | Some v => (v, d)
  | None => (None, <[k := None]> d)
  end.

(** [EasyTranslator.translate]: the instance as the call leaves it, with
    the outcome of the call. *)
Definition EasyTranslator_translate (self : EasyTranslator) (text : Text)
    (model_name_or_path : string) (t5_prefix : string) (mini_batch_size : Z)
    (num_beams min_length max_length : Z) (early_stopping : bool)
    (kwargs : list (string * Z)) (w : World)
    : EasyTranslator * (Outcome (list string) * World) :=
  let '(v, d) := defaultdict_getitem (translators self) model_name_or_path in
  match v with
  | Some translator =>
      ({| translators := d |},
       TransformersTranslator_predict translator text t5_prefix mini_batch_size
         num_beams min_length max_length early_stopping kwargs w)
  | None =>
      match TransformersTranslator_load model_name_or_path w with
      | (Raise e, w') => ({| translators := d |}, (Raise e, w'))
      | (Return translator, w') =>
          ({| translators := <[model_name_or_path := Some translator]> d |},
           TransformersTranslator_predict translator text t5_prefix mini_batch_size
             num_beams min_length max_length early_stopping kwargs w')
      end
  end.

End Pipeline.

(** How many translators a trace shows constructed. *)
Definition is_init (e : Event) : bool :=
  match e with EvInit _ _ => true | _ => false end.
Definition constructed (w : World) : nat := length (filter is_init (trace w)).

Definition is_tokenize (e : Event) : bool :=
  match e with EvTokenize _ _ => true | _ => false end.
Definition is_generate (e : Event) : bool :=
  match e with EvGenerate _ _ _ _ => true | _ => false end.
Definition is_forward (e : Event) : bool :=
  match e with EvForward _ _ => true | _ => false end.

(** A small pretrained library to run the pipeline on: ids are character
    codes, generation copies the ids, decoding renders the rows. *)
Definition toy_ids (s : string) : list Z :=
  map (fun a => Z.of_nat (Ascii.nat_of_ascii a)) (String.list_ascii_of_string s).

Definition toy_text (v : list Z) : string :=
  String.string_of_list_ascii (map (fun z => Ascii.ascii_of_nat (Z.to_nat z)) v).

Definition toy_decode (t : Tensor) : string :=
  match t with
  | Scalar z => toy_text [z]
  | Vec v => toy_text v
  | Mat rows => toy_text (concat rows)
  end.

Definition toy : Transformers := {|
  AutoTokenizer_from_pretrained name :=
    if String.eqb name "" then Raise (ExternalError "not found")
    else Return (PreTrainedTokenizer name);
  AutoModelForSeq2SeqLM_from_pretrained name :=
    if String.eqb name "t5-small" then Return (T5ForConditionalGeneration name)
    else Return (PreTrainedModel name);
  encode_plus _ s := (toy_ids s, map (fun _ => 1) (toy_ids s));
  generate _ input_ids _ _ := Return input_ids;
  decode _ t := toy_decode t;
  forward _ _ := Return (Scalar 0)
|}.

(** Concrete inputs: a generation request, a translator and the store its
    construction leaves, a routed batch of one row. *)
Definition greedy : GenerationRequest :=
  {| num_beams := 1; min_length := 0; max_length := 128;
     early_stopping := true; kwargs := [] |}.

Definition bart : TransformersTranslator :=
  {| tokenizer := PreTrainedTokenizer "bart"; model := PreTrainedModel "bart" |}.

Definition bart_world : World :=
  (TransformersTranslator_init (PreTrainedTokenizer "bart") (PreTrainedModel "bart")
     _BaseLearner_init).2.

Definition routed_world : World :=
  set_xb (XbDict [("input_ids", Mat [[7; 8]]); ("attention_mask", Mat [[1; 1]])])
         bart_world.

(** The texts [predict] tokenizes: the list made of the argument, with the
    task prefix on each text for a T5 model. *)
Definition prepared (self : TransformersTranslator) (text : Text)
    (t5_prefix : string) : list string :=
  let text := match text with Str s => [s] | Strs l => l end in
  match model self with
  | T5ForConditionalGeneration _ =>
      map (fun t => (t5_prefix ++ ": " ++ t)%string) text
  | _ => text
  end.

(** A computation is silent for a kind of event when it adds no event of
    that kind to the trace, whatever its outcome. *)
Definition silent {A} (P : Event -> bool) (c : M A) : Prop :=
  forall w, filter P (trace (c w).2) = filter P (trace w).

(** The claim that [predict] fails before it tokenizes: the outcome is the
    configuration error and the trace shows no tokenizer call more than
    before. *)
Definition fails_before_tokenizing (r : Outcome (list string) * World) (w : World)
    : Prop :=
  (exists msg, r.1 = Raise (ValueError msg)) /\
  filter is_tokenize (trace r.2) = filter is_tokenize (trace w).

(** A computation preserves a property of the store when the store it
    leaves has the property whenever the store it starts from has it,
    whatever its outcome. *)
Definition preserves {A} (I : World -> Prop) (c : M A) : Prop :=
  forall w, I w -> I (c w).2.

(** The requests of the generation hooks among some callbacks all satisfy
    [R]. *)
Definition generator_requests (R : GenerationRequest -> Prop) (cb : Callback) : Prop :=
  match cb with
  | GeneratorCallback r => R r
  | _ => True
  end.

(** A generation event, if it is one, is a call on the model [m] with the
    request [req]. *)
Definition generated_by (m : Model) (req : GenerationRequest) (e : Event) : Prop :=
  match e with
  | EvGenerate m' _ _ r => m' = m /\ r = req
  | _ => True
  end.

Definition is_decode (e : Event) : bool :=
  match e with EvDecode _ _ => true | _ => false end.

(** The mapping [GatherInputsCallback.before_batch] builds from a batch
    whose first two elements are [t0] and [t1]. *)
Definition gathered (t0 t1 : Tensor) (rest : list Tensor) : Inputs :=
  ("input_ids", t0) :: ("attention_mask", t1)
    :: match rest with
       | [] => []
       | t2 :: _ => [("token_type_ids", t2)]
       end.

(** The same library with a generation call that always fails. *)
Definition out_of_memory : Transformers := {|
  AutoTokenizer_from_pretrained := @AutoTokenizer_from_pretrained toy;
  AutoModelForSeq2SeqLM_from_pretrained := @AutoModelForSeq2SeqLM_from_pretrained toy;
  encode_plus := @encode_plus toy;
  generate _ _ _ _ := Raise (ExternalError "out of memory");
  decode := @decode toy;
  forward := @forward toy
|}.

(** More concrete inputs: the store of [bart_world] with the routing flag
    off, a batch of four elements, and a registry after one [translate]. *)
Definition unrouted_world : World := (_BaseLearner_set_as_dict false bart_world).2.

Definition four_world : World :=
  set_xb (XbTuple [Mat [[7; 8]]; Mat [[1; 1]]; Mat [[0; 0]]; Mat [[5; 5]]]) bart_world.

Definition easy_a : EasyTranslator * (Outcome (list string) * World) :=
  EasyTranslator_translate (hf := toy) EasyTranslator_init (Str "hi") "a"
    "translate English to German" 32 1 0 128 true [] _BaseLearner_init.

(** * Properties *)

Section Properties.
Context {hf : Transformers}.

(** ** The three hooks of the batch stage *)

(** C4: for a batch of length 2, [GatherInputsCallback.before_batch] leaves
    on the learner the mapping with exactly the keys [input_ids] and
    [attention_mask], bound to positions 0 and 1 of the batch; for a batch
    of length 3 the mapping has the third key [token_type_ids], bound to
    position 2. *)
Theorem GatherInputsCallback_before_batch_keys (w : World) (b0 b1 b2 : Tensor) :
  GatherInputsCallback_before_batch (set_xb (XbTuple [b0; b1]) w)
    = (Return tt,
       set_inputs [("input_ids", b0); ("attention_mask", b1)]
                  (set_xb (XbTuple [b0; b1]) w))
  /\ GatherInputsCallback_before_batch (set_xb (XbTuple [b0; b1; b2]) w)
    = (Return tt,
       set_inputs [("input_ids", b0); ("attention_mask", b1); ("token_type_ids", b2)]
                  (set_xb (XbTuple [b0; b1; b2]) w)).
Proof. split; reflexivity. Qed.

(** The key [token_type_ids] is bound exactly when the batch has a third
    element. *)
Lemma GatherInputsCallback_token_type_ids (w : World) (ts : list Tensor) (d : Inputs) :
  learn_xb w = XbTuple ts ->
  (GatherInputsCallback_before_batch w).1 = Return tt ->
  learn_inputs (GatherInputsCallback_before_batch w).2 = Some d ->
  (2 < length ts)%nat <-> is_Some (dict_get d "token_type_ids").
Proof.
  intros Hxb. unfold GatherInputsCallback_before_batch, bind, get, lift, modify, ret.
  rewrite Hxb. cbn [xb_index xb_len].
  destruct ts as [|t0 [|t1 [|t2 ts]]]; cbn; try discriminate.
  - intros _ [= <-]. cbn. split; [lia | intros [? [=]]].
  - intros _ [= <-]. cbn. split; [eauto | lia].
Qed.

(** C5: with [as_dict] false [SetInputsCallback.before_batch] exposes the
    values of the mapping as a sequence in insertion order, with [as_dict]
    true it exposes the mapping itself; the mapping that
    [GatherInputsCallback] builds lists [input_ids], [attention_mask] and
    then [token_type_ids]; the flag is false when the constructor is
    called without it. *)
Theorem SetInputsCallback_before_batch_routes (w : World) (d : Inputs)
    (b0 b1 b2 : Tensor) :
  SetInputsCallback_before_batch false (set_inputs d w)
    = (Return tt, set_xb (XbTuple (dict_values d)) (set_inputs d w))
  /\ SetInputsCallback_before_batch true (set_inputs d w)
    = (Return tt, set_xb (XbDict d) (set_inputs d w))
  /\ learn_xb ((GatherInputsCallback_before_batch ;; SetInputsCallback_before_batch false)
                 (set_xb (XbTuple [b0; b1]) w)).2 = XbTuple [b0; b1]
  /\ learn_xb ((GatherInputsCallback_before_batch ;; SetInputsCallback_before_batch false)
                 (set_xb (XbTuple [b0; b1; b2]) w)).2 = XbTuple [b0; b1; b2]
  /\ SetInputsCallback_init None = SetInputsCallback false.
Proof. repeat split; reflexivity. Qed.

(** ** Priorities *)

Lemma insert_by_order_perm (cb : Callback) (l : list Callback) :
  insert_by_order cb l ≡ₚ cb :: l.
Proof.
  induction l as [|c l IH]; cbn; [done|].
  destruct (order cb <=? order c); [done|].
  rewrite IH. apply Permutation_swap.
Qed.

Lemma sorted_perm (l : list Callback) : sorted l ≡ₚ l.
Proof.
  induction l as [|c l IH]; cbn; [done|].
  rewrite insert_by_order_perm. by rewrite IH.
Qed.

Lemma insert_by_order_sorted (cb : Callback) (l : list Callback) :
  StronglySorted by_order l -> StronglySorted by_order (insert_by_order cb l).
Proof.
  induction l as [|c l IH]; cbn; intros Hs.
  - repeat constructor.
  - apply StronglySorted_inv in Hs as [Hl Hc].
    destruct (Z.leb_spec (order cb) (order c)) as [Hle|Hlt].
    + constructor; [by constructor|].
      constructor; [done|].
      eapply Forall_impl; [exact Hc|]. unfold by_order. intros; lia.
    + constructor; [by apply IH|].
      rewrite insert_by_order_perm. constructor; [unfold by_order; lia | done].
Qed.

Lemma sorted_StronglySorted (l : list Callback) : StronglySorted by_order (sorted l).
Proof.
  induction l as [|c l IH]; cbn; [constructor|]. by apply insert_by_order_sorted.
Qed.

Lemma StronglySorted_lookup_lt (l : list Callback) (i j : nat) (a b : Callback) :
  StronglySorted by_order l -> (i < j)%nat ->
  l !! i = Some a -> l !! j = Some b -> by_order a b.
Proof.
  intros Hs. revert i j. induction Hs as [|c l Hs IH Hall]; intros i j Hij Hi Hj.
  - by rewrite lookup_nil in Hi.
  - destruct j as [|j]; [lia|]. destruct i as [|i]; cbn in *.
    + injection Hi as <-. rewrite Forall_forall in Hall. apply Hall.
      by eapply list_elem_of_lookup_2.
    + eapply IH; [|done..]. lia.
Qed.

Lemma sorted_position (l : list Callback) (i j : nat) (a b : Callback) :
  sorted l !! i = Some a -> sorted l !! j = Some b ->
  order a < order b -> (i < j)%nat.
Proof.
  intros Hi Hj Hab. destruct (decide (i < j)%nat) as [|Hn]; [done|].
  destruct (decide (i = j)) as [->|Hne].
  - rewrite Hi in Hj. injection Hj as ->. lia.
  - assert (by_order b a) as Hba.
    { eapply (StronglySorted_lookup_lt (sorted l) j i);
        [apply sorted_StronglySorted | lia | done..]. }
    unfold by_order in Hba. lia.
Qed.

(** C6: the priorities satisfy [GatherInputsCallback.order] <
    [SetInputsCallback.order] < the order [GeneratorCallback] inherits, and
    in the order in which the engine runs the hooks of a stage, smaller
    priority first, [GatherInputsCallback] comes before [SetInputsCallback]
    and that one before [GeneratorCallback], however they were
    registered. *)
Theorem hooks_run_in_priority_order (cbs : list Callback) (as_dict : bool)
    (req : GenerationRequest) (i j k : nat)
    (Hi : sorted cbs !! i = Some GatherInputsCallback)
    (Hj : sorted cbs !! j = Some (SetInputsCallback as_dict))
    (Hk : sorted cbs !! k = Some (GeneratorCallback req)) :
  order GatherInputsCallback < order (SetInputsCallback as_dict)
    < order (GeneratorCallback req)
  /\ (i < j < k)%nat.
Proof.
  assert (order GatherInputsCallback < order (SetInputsCallback as_dict)) as H1
    by (cbn; lia).
  assert (order (SetInputsCallback as_dict) < order (GeneratorCallback req)) as H2
    by (cbn; unfold Callback_order; lia).
  split; [lia|]. split; eapply sorted_position; eauto.
Qed.

(** The hooks of a [predict] run, as the engine orders them. *)
Lemma sorted_predict_hooks (as_dict : bool) (req : GenerationRequest) :
  sorted ([CudaCallback; SetInputsCallback as_dict; GatherInputsCallback]
            ++ [GeneratorCallback req] ++ [GatherPredsCallback])%list
  = [GatherInputsCallback; SetInputsCallback as_dict; CudaCallback;
     GeneratorCallback req; GatherPredsCallback].
Proof. reflexivity. Qed.


(** ** Which computations leave which events *)

Lemma silent_ret {A} (P : Event -> bool) (a : A) : silent P (ret a).
Proof. done. Qed.

Lemma silent_raise {A} (P : Event -> bool) e : silent P (@raise A e).
Proof. done. Qed.

Lemma silent_lift {A} (P : Event -> bool) (o : Outcome A) : silent P (lift o).
Proof. done. Qed.

Lemma silent_get (P : Event -> bool) : silent P get.
Proof. done. Qed.

Lemma silent_bind {A B} (P : Event -> bool) (c : M A) (k : A -> M B) :
  silent P c -> (forall a, silent P (k a)) -> silent P (bind c k).
Proof.
  intros Hc Hk w. unfold bind. specialize (Hc w).
  destruct (c w) as [[a|e] w']; cbn in *; [|done].
  by rewrite Hk.
Qed.

Lemma silent_modify (P : Event -> bool) (f : World -> World) :
  (forall w, filter P (trace (f w)) = filter P (trace w)) -> silent P (modify f).
Proof. intros Hf w. apply Hf. Qed.

Lemma silent_record (P : Event -> bool) (e : Event) : P e = false -> silent P (modify (record e)).
Proof.
  intros He w. unfold modify, record. cbn [snd trace].
  rewrite filter_cons. destruct (decide (P e)) as [Hp|]; [|done].
  rewrite He in Hp. done.
Qed.

Lemma silent_with_cancel_batch (P : Event -> bool) (c : M unit) :
  silent P c -> silent P (with_cancel_batch c).
Proof.
  intros Hc w. unfold with_cancel_batch. specialize (Hc w).
  destruct (c w) as [[[]|[]] w']; done.
Qed.

Ltac silent_step :=
  cbv beta zeta;
  lazymatch goal with
  | |- silent _ (ret _) => apply silent_ret
  | |- silent _ (raise _) => apply silent_raise
  | |- silent _ (lift _) => apply silent_lift
  | |- silent _ get => apply silent_get
  | |- silent _ (modify (record _)) => apply silent_record; solve [reflexivity | auto]
  | |- silent _ (modify _) => apply silent_modify; reflexivity
  | |- silent _ (with_cancel_batch _) => apply silent_with_cancel_batch
  | |- silent _ (bind _ _) => apply silent_bind; [|intros ?]
  end.

Ltac silent_auto := repeat silent_step.

Lemma silent_GatherInputsCallback_before_batch (P : Event -> bool) :
  silent P GatherInputsCallback_before_batch.
Proof.
  unfold GatherInputsCallback_before_batch. silent_auto.
  destruct (_ <? _)%nat; silent_auto.
Qed.

Lemma silent_SetInputsCallback_before_batch (P : Event -> bool) as_dict :
  silent P (SetInputsCallback_before_batch as_dict).
Proof.
  unfold SetInputsCallback_before_batch. silent_auto.
  destruct (learn_inputs _); [destruct (negb _)|]; silent_auto.
Qed.

Lemma silent_GeneratorCallback_before_batch (P : Event -> bool) req :
  (forall m i a r, P (EvGenerate m i a r) = false) ->
  silent P (GeneratorCallback_before_batch req).
Proof.
  intros HP. unfold GeneratorCallback_before_batch. silent_auto.
  destruct (learn_model _); silent_auto; apply silent_record, HP.
Qed.

Lemma silent_before_batch (P : Event -> bool) cb :
  (forall m i a r, P (EvGenerate m i a r) = false) ->
  silent P (before_batch cb).
Proof.
  intros HP. destruct cb; cbn [before_batch];
    auto using silent_GatherInputsCallback_before_batch,
      silent_SetInputsCallback_before_batch, silent_GeneratorCallback_before_batch,
      silent_ret.
Qed.

Lemma silent_run_hooks (P : Event -> bool) (hook : Callback -> M unit) (cbs : list Callback) :
  (forall cb, silent P (hook cb)) -> silent P (run_hooks hook cbs).
Proof. intros Hh. induction cbs as [|cb cbs IH]; cbn; silent_auto; auto. Qed.

(** ** The generation hook *)

Lemma GeneratorCallback_before_batch_raises (req : GenerationRequest) (w : World) :
  exists e, (GeneratorCallback_before_batch req w).1 = Raise e.
Proof.
  unfold GeneratorCallback_before_batch, bind, get, lift, modify, raise. cbn.
  destruct (learn_model w); cbn; eauto;
    destruct (xb_item (learn_xb w) "input_ids"); cbn; eauto;
    destruct (xb_item (learn_xb w) "attention_mask"); cbn; eauto;
    destruct (generate _ _ _ _); cbn; eauto.
Qed.

Lemma run_hooks_before_batch_raises (req : GenerationRequest) (cbs : list Callback)
    (w : World) :
  GeneratorCallback req ∈ cbs -> exists e, (run_hooks before_batch cbs w).1 = Raise e.
Proof.
  revert w. induction cbs as [|cb cbs IH]; intros w Hin.
  - by apply not_elem_of_nil in Hin.
  - cbn [run_hooks]. unfold bind.
    destruct (before_batch cb w) as [[[]|e] w'] eqn:Hcb; cbn; [|eauto].
    apply elem_of_cons in Hin as [<-|Hin]; [|by apply IH].
    destruct (GeneratorCallback_before_batch_raises req w) as [e He].
    cbn [before_batch] in Hcb. rewrite Hcb in He. done.
Qed.

(** C2: [GeneratorCallback.before_batch] never returns: it ends in a raise;
    when the generation call returns [pred], the hook has stored [pred] as
    the learner's prediction and raises [CancelBatchException]; and a batch
    run with the hook registered records no default computation, whatever
    the other hooks are. *)
Theorem GeneratorCallback_aborts_batch (req : GenerationRequest)
    (cbs : list Callback) (b : list Tensor) (w : World)
    (Hin : GeneratorCallback req ∈ cbs) :
  (exists e, (GeneratorCallback_before_batch req w).1 = Raise e)
  /\ (forall input_ids attention_mask pred,
        learn_model w <> _NoopModel ->
        xb_item (learn_xb w) "input_ids" = Return input_ids ->
        xb_item (learn_xb w) "attention_mask" = Return attention_mask ->
        generate (learn_model w) input_ids attention_mask req = Return pred ->
        GeneratorCallback_before_batch req w
          = (Raise CancelBatchException,
             set_pred pred
               (record (EvGenerate (learn_model w) input_ids attention_mask req) w)))
  /\ filter is_forward (trace (Learner_one_batch cbs b w).2)
       = filter is_forward (trace w).
Proof.
  split; [apply GeneratorCallback_before_batch_raises|]. split.
  - intros input_ids attention_mask pred Hm Hi Ha Hg.
    unfold GeneratorCallback_before_batch, bind, get, lift, modify, raise. cbn.
    destruct (learn_model w) eqn:Hmodel; [done|..];
      rewrite Hi, Ha; cbn; rewrite Hg; reflexivity.
  - unfold Learner_one_batch, bind, get, modify. cbn.
    set (w1 := set_xb _ w).
    change (filter is_forward (trace w)) with (filter is_forward (trace w1)).
    unfold with_cancel_batch, bind.
    assert (GeneratorCallback req ∈ sorted cbs) as Hin'
      by (by rewrite sorted_perm).
    destruct (run_hooks_before_batch_raises req (sorted cbs) w1 Hin') as [e He].
    pose proof (silent_run_hooks is_forward before_batch (sorted cbs)
                  (fun cb => silent_before_batch is_forward cb
                               (fun _ _ _ _ => eq_refl)) w1) as Hs.
    destruct (run_hooks before_batch (sorted cbs) w1) as [[[]|e'] w2];
      cbn in He; [done|].
    cbn in Hs. destruct e'; exact Hs.
Qed.

(** ** The facade *)

(** C7: [predict] on a single string is [predict] on the list that holds
    just that string, for every choice of the other arguments and in every
    store. *)
Theorem predict_str_as_singleton (self : TransformersTranslator) (s : string)
    (t5_prefix : string) (mini_batch_size num_beams min_length max_length : Z)
    (early_stopping : bool) (kwargs : list (string * Z)) (w : World) :
  TransformersTranslator_predict self (Str s) t5_prefix mini_batch_size
    num_beams min_length max_length early_stopping kwargs w
  = TransformersTranslator_predict self (Strs [s]) t5_prefix mini_batch_size
      num_beams min_length max_length early_stopping kwargs w.
Proof. reflexivity. Qed.

(** C8: [train] and [evaluate] raise [NotImplementedError] on every
    translator and in every store, and leave the store as it was. *)
Theorem train_evaluate_not_implemented (self : TransformersTranslator) (w : World) :
  TransformersTranslator_train self w = (Raise NotImplementedError, w)
  /\ TransformersTranslator_evaluate self w = (Raise NotImplementedError, w).
Proof. split; reflexivity. Qed.

Lemma bind_Return_inv {A B} (c : M A) (k : A -> M B) (w w' : World) (b : B) :
  bind c k w = (Return b, w') ->
  exists a w1, c w = (Return a, w1) /\ k a w1 = (Return b, w').
Proof.
  unfold bind. destruct (c w) as [[a|e] w1]; [eauto | discriminate].
Qed.

(** *** One prediction per batch *)

Lemma gather_length (preds : list Tensor) (w : World) :
  (length (gather preds w) <= S (length preds))%nat.
Proof.
  unfold gather. destruct (learn_pred w); [rewrite length_app; cbn|]; lia.
Qed.

Lemma Learner_all_batches_length (cbs : list Callback) (dl : list (list Tensor))
    (preds ps : list Tensor) (w w' : World) :
  Learner_all_batches cbs dl preds w = (Return ps, w') ->
  (length ps <= length preds + length dl)%nat.
Proof.
  revert preds w. induction dl as [|b dl IH]; intros preds w; cbn [Learner_all_batches].
  - intros [= <- _]. cbn. lia.
  - intros (_ & w1 & _ & H)%bind_Return_inv.
    apply bind_Return_inv in H as (w2 & w3 & [= <- <-] & H).
    apply IH in H. pose proof (gather_length preds w1). cbn. lia.
Qed.

Lemma _BaseLearner_get_preds_length (dl : list (list Tensor)) (cbs : list Callback)
    (ps : list Tensor) (w w' : World) :
  _BaseLearner_get_preds (Some dl) cbs w = (Return ps, w') ->
  (length ps <= length dl)%nat.
Proof.
  unfold _BaseLearner_get_preds.
  intros (w1 & w2 & [= <- <-] & H)%bind_Return_inv.
  assert (Learner_get_preds dl cbs w = (Return ps, w')) as Hl
    by (destruct (learn_model w); [discriminate|done..]).
  unfold Learner_get_preds in Hl.
  apply bind_Return_inv in Hl as (? & ? & [= <- <-] & Hl).
  apply bind_Return_inv in Hl as (_ & w3 & _ & Hl).
  apply Learner_all_batches_length in Hl. cbn in Hl. lia.
Qed.

Lemma decode_all_result (tok : Tokenizer) (preds : list Tensor)
    (translations : list string) (w : World) :
  (decode_all tok preds translations w).1
  = Return (translations ++ map (decode tok) preds)%list.
Proof.
  revert translations w. induction preds as [|o preds IH]; intros translations w.
  - cbn. by rewrite app_nil_r.
  - cbn [decode_all]. unfold bind, modify. rewrite IH. cbn.
    by rewrite <- app_assoc.
Qed.

Lemma prepared_length (self : TransformersTranslator) (l : list string)
    (t5_prefix : string) :
  length (prepared self (Strs l) t5_prefix) = length l.
Proof. unfold prepared. destruct (model self); by rewrite ?length_map. Qed.

(** [predict] returns at most one string per batch of the loader. *)
Lemma predict_length_le_batches (self : TransformersTranslator) (text : Text)
    (t5_prefix : string) (mini_batch_size num_beams min_length max_length : Z)
    (early_stopping : bool) (kwargs : list (string * Z)) (w : World)
    (l : list string) :
  (TransformersTranslator_predict self text t5_prefix mini_batch_size
     num_beams min_length max_length early_stopping kwargs w).1 = Return l ->
  exists dl,
    DataLoader (map (encode_plus (tokenizer self)) (prepared self text t5_prefix))
               mini_batch_size = Return dl
    /\ (length l <= length dl)%nat.
Proof.
  unfold TransformersTranslator_predict. fold (prepared self text t5_prefix).
  generalize (prepared self text t5_prefix). intros texts.
  destruct (bind _ _ w) as [r w'] eqn:H. cbn [fst]. intros ->.
  apply bind_Return_inv in H as (dataset & w1 & Htok & H).
  unfold _tokenize in Htok.
  apply bind_Return_inv in Htok as (_ & ? & _ & [= <- _]).
  apply bind_Return_inv in H as (dl & w2 & Hdl & H).
  unfold lift in Hdl. injection Hdl as Hdl _.
  apply bind_Return_inv in H as (preds & w3 & Hp & H).
  unfold AdaptiveModel_get_preds in Hp.
  apply _BaseLearner_get_preds_length in Hp.
  exists dl. split; [done|].
  pose proof (decode_all_result (tokenizer self) (map squeeze0 preds) [] w3) as Hd.
  rewrite H in Hd. cbn in Hd. injection Hd as ->.
  by rewrite !length_map.
Qed.

Lemma DataLoader_two (x y : list Z * list Z) (batch_size : Z) :
  2 <= batch_size -> DataLoader [x; y] batch_size = Return [collate [x; y]].
Proof.
  intros Hbs. unfold DataLoader. destruct (Z.leb_spec batch_size 0); [lia|].
  assert (2 <= Z.to_nat batch_size)%nat as Hn by lia.
  destruct (Z.to_nat batch_size) as [|[|[|n]]]; [lia..| |]; reflexivity.
Qed.

(** C1, at the input where it fails: with two texts and a batch size of
    at least 2 the loader yields one batch, and the list [predict] returns
    has at most one string, so not one per text. *)
Theorem predict_two_texts_one_batch (self : TransformersTranslator)
    (s1 s2 : string) (t5_prefix : string)
    (mini_batch_size num_beams min_length max_length : Z)
    (early_stopping : bool) (kwargs : list (string * Z)) (w : World)
    (l : list string)
    (Hbs : 2 <= mini_batch_size)
    (Hret : (TransformersTranslator_predict self (Strs [s1; s2]) t5_prefix
               mini_batch_size num_beams min_length max_length early_stopping
               kwargs w).1 = Return l) :
  (length l <= 1)%nat.
Proof.
  apply predict_length_le_batches in Hret as (dl & Hdl & Hlen).
  pose proof (prepared_length self [s1; s2] t5_prefix) as Hp.
  destruct (prepared self (Strs [s1; s2]) t5_prefix) as [|t1 [|t2 [|]]];
    try discriminate.
  cbn [map] in Hdl. rewrite DataLoader_two in Hdl by done.
  injection Hdl as <-. exact Hlen.
Qed.

(** *** Batches of one row

    The case in which [predict] does return one string per text: a batch
    size of 1, the callbacks as the constructor leaves them, and a
    generation call that returns. *)

Lemma batch_sampler_1 {A} (l : list A) :
  batch_sampler 1 [] l = map (fun x => [x]) l.
Proof. induction l as [|x l IH]; cbn; [done|]. by rewrite IH. Qed.

Section BatchesOfOne.
Variable req : GenerationRequest.
Variable m : Model.
Variable gen : Tensor -> Tensor -> Tensor.
Hypothesis m_set : m <> _NoopModel.
Hypothesis gen_returns : forall i a, generate m i a req = Return (gen i a).

(** The store between two batches of such a run. *)
Local Abbreviation ready w :=
  (learn_model w = m
   /\ learn_cbs w = [CudaCallback; SetInputsCallback true; GatherInputsCallback]
   /\ learn_n_inp w = Some 2%nat).

Lemma Learner_one_batch_generates (cbs : list Callback) (i a : Tensor) (w : World) :
  ready w ->
  cbs = (learn_cbs w ++ [GeneratorCallback req] ++ [GatherPredsCallback])%list ->
  exists w', Learner_one_batch cbs [i; a] w = (Return tt, w')
             /\ learn_pred w' = Some (gen i a) /\ ready w'.
Proof.
  intros (Hm & Hc & Hn) ->. destruct w as [m' cbs' n x inp p tr].
  cbn in Hm, Hc, Hn. subst m' cbs' n.
  unfold Learner_one_batch, bind, get, modify, with_cancel_batch. cbn.
  unfold GeneratorCallback_before_batch, GatherInputsCallback_before_batch,
    SetInputsCallback_before_batch, bind, get, modify, lift, ret, raise. cbn.
  destruct m; [done|..]; cbn; rewrite gen_returns; cbn;
    (eexists; split; [reflexivity|]; repeat split; reflexivity).
Qed.

Lemma Learner_all_batches_generates (cbs : list Callback)
    (dataset : list (list Z * list Z)) (preds : list Tensor) (w : World) :
  ready w ->
  cbs = (learn_cbs w ++ [GeneratorCallback req] ++ [GatherPredsCallback])%list ->
  exists w',
    Learner_all_batches cbs (map collate (map (fun e => [e]) dataset)) preds w
    = (Return (preds ++ map (fun e => gen (Mat [e.1]) (Mat [e.2])) dataset)%list, w').
Proof.
  revert preds w. induction dataset as [|e dataset IH]; intros preds w Hw Hcbs.
  - cbn. rewrite app_nil_r. eauto.
  - cbn [map Learner_all_batches]. unfold bind at 1.
    destruct (Learner_one_batch_generates cbs (Mat [e.1]) (Mat [e.2]) w Hw Hcbs)
      as (w1 & Hone & Hpred & Hw1).
    change (collate [e]) with [Mat [e.1]; Mat [e.2]]. rewrite Hone.
    unfold bind at 1, get. unfold gather. rewrite Hpred.
    destruct (IH (preds ++ [gen (Mat [e.1]) (Mat [e.2])])%list w1 Hw1) as (w' & Hall).
    { destruct Hw as (_ & Hc & _), Hw1 as (_ & Hc1 & _).
      by rewrite Hcbs, Hc, Hc1. }
    exists w'. rewrite Hall. by rewrite <- app_assoc.
Qed.

Lemma Learner_get_preds_generates (e : list Z * list Z)
    (dataset : list (list Z * list Z)) (w : World) :
  learn_model w = m ->
  learn_cbs w = [CudaCallback; SetInputsCallback true; GatherInputsCallback] ->
  exists w',
    Learner_get_preds (map collate (map (fun e => [e]) (e :: dataset)))
      [GeneratorCallback req] w
    = (Return (map (fun e => gen (Mat [e.1]) (Mat [e.2])) (e :: dataset)), w').
Proof.
  intros Hm Hc. unfold Learner_get_preds, bind at 1, get. rewrite Hc.
  rewrite sorted_predict_hooks. unfold bind at 1.
  change (run_hooks _ _ w) with (Return tt, set_n_inp 2 w).
  destruct (Learner_all_batches_generates
              ([CudaCallback; SetInputsCallback true; GatherInputsCallback]
                 ++ [GeneratorCallback req] ++ [GatherPredsCallback])%list
              (e :: dataset) [] (set_n_inp 2 w)) as (w' & Hall);
    [by repeat split | by cbn; rewrite Hc | ].
  exists w'. exact Hall.
Qed.

(** With a batch size of 1, [predict] on a non-empty list of texts returns
    one string per text, in order: the decoded generation for that text. *)
Lemma predict_batch_size_1_preserves (self : TransformersTranslator)
    (s : string) (l : list string) (t5_prefix : string) (w : World) :
  learn_model w = m ->
  learn_cbs w = [CudaCallback; SetInputsCallback true; GatherInputsCallback] ->
  (TransformersTranslator_predict self (Strs (s :: l)) t5_prefix 1
     (num_beams req) (min_length req) (max_length req) (early_stopping req)
     (kwargs req) w).1
  = Return (map (fun t =>
                   decode (tokenizer self)
                     (squeeze0 (gen (Mat [(encode_plus (tokenizer self) t).1])
                                    (Mat [(encode_plus (tokenizer self) t).2]))))
                (prepared self (Strs (s :: l)) t5_prefix)).
Proof.
  intros Hm Hc.
  assert (req = {| num_beams := num_beams req; min_length := min_length req;
                   max_length := max_length req;
                   early_stopping := early_stopping req; kwargs := kwargs req |})
    as Hreq by (by destruct req).
  unfold TransformersTranslator_predict.
  fold (prepared self (Strs (s :: l)) t5_prefix).
  pose proof (prepared_length self (s :: l) t5_prefix) as Hlen.
  destruct (prepared self (Strs (s :: l)) t5_prefix) as [|t texts]; [done|].
  clear Hlen. rewrite <- Hreq.
  unfold bind at 1. unfold _tokenize, bind at 1, modify, ret. cbn [fst snd].
  unfold bind at 1, lift, DataLoader.
  change (1 <=? 0) with false. change (Z.to_nat 1) with 1%nat. cbv iota.
  rewrite batch_sampler_1.
  set (w1 := record _ w).
  unfold bind at 1, AdaptiveModel_get_preds, _BaseLearner_get_preds, bind at 1, get.
  destruct (Learner_get_preds_generates (encode_plus (tokenizer self) t)
              (map (encode_plus (tokenizer self)) texts) w1 Hm Hc) as (w' & Hgp).
  change (encode_plus (tokenizer self) t :: map (encode_plus (tokenizer self)) texts)
    with (map (encode_plus (tokenizer self)) (t :: texts)) in Hgp.
  assert (learn_model w1 = m) as Hm1 by exact Hm.
  destruct (learn_model w1) eqn:Hmodel; [by subst m|..];
    rewrite Hgp, decode_all_result; cbn [app]; by rewrite !map_map.
Qed.

End BatchesOfOne.

(** C3, amended: with a positive batch size, [predict] in a store whose
    learner still holds the placeholder model fails with the configuration
    error of [get_preds]; at the failure the tokenizer has been called once,
    on the prepared texts, and nothing else has happened. *)
Theorem predict_placeholder_fails_after_tokenizing (self : TransformersTranslator)
    (text : Text) (t5_prefix : string)
    (mini_batch_size num_beams min_length max_length : Z)
    (early_stopping : bool) (kwargs : list (string * Z)) (w : World)
    (Hnoop : learn_model w = _NoopModel)
    (Hbs : 0 < mini_batch_size) :
  TransformersTranslator_predict self text t5_prefix mini_batch_size
    num_beams min_length max_length early_stopping kwargs w
  = (Raise (ValueError "The default model is still set, you should override this with `_BaseLearner.set_model(x)`"),
     record (EvTokenize (tokenizer self) (prepared self text t5_prefix)) w).
Proof.
  unfold TransformersTranslator_predict. fold (prepared self text t5_prefix).
  generalize (prepared self text t5_prefix). intros texts.
  unfold bind at 1. unfold _tokenize, bind at 1, modify, ret. cbn [fst snd].
  unfold bind at 1, lift, DataLoader.
  destruct (Z.leb_spec mini_batch_size 0); [lia|].
  unfold bind at 1, AdaptiveModel_get_preds, _BaseLearner_get_preds, bind at 1, get.
  cbn [learn_model record]. rewrite Hnoop. reflexivity.
Qed.

(** ** Events that only a constructor or a loader leaves *)

Section SilentPipeline.
Variable P : Event -> bool.
Hypothesis Pgenerate : forall m i a r, P (EvGenerate m i a r) = false.
Hypothesis Pforward : forall m x, P (EvForward m x) = false.
Hypothesis Ptokenize : forall tok l, P (EvTokenize tok l) = false.
Hypothesis Pdecode : forall tok o, P (EvDecode tok o) = false.

Lemma silent_do_one_batch : silent P _do_one_batch.
Proof. unfold _do_one_batch. silent_auto. Qed.

Lemma silent_Learner_one_batch cbs b : silent P (Learner_one_batch cbs b).
Proof.
  unfold Learner_one_batch. silent_auto.
  - apply silent_run_hooks. intros cb. by apply silent_before_batch.
  - apply silent_do_one_batch.
Qed.

Lemma silent_Learner_all_batches cbs dl preds :
  silent P (Learner_all_batches cbs dl preds).
Proof.
  revert preds. induction dl as [|b dl IH]; intros preds; cbn [Learner_all_batches].
  - apply silent_ret.
  - silent_auto; [apply silent_Learner_one_batch | apply IH].
Qed.

Lemma silent_Learner_get_preds dl cbs : silent P (Learner_get_preds dl cbs).
Proof.
  unfold Learner_get_preds. silent_auto.
  - apply silent_run_hooks. intros [] ; cbn [before_validate]; silent_auto.
    unfold GatherInputsCallback_before_validate.
    destruct (one_batch dl); silent_auto.
  - apply silent_Learner_all_batches.
Qed.

Lemma silent_BaseLearner_get_preds dl cbs : silent P (_BaseLearner_get_preds dl cbs).
Proof.
  unfold _BaseLearner_get_preds. destruct dl as [dl|]; silent_auto.
  destruct (learn_model _); silent_auto; apply silent_Learner_get_preds.
Qed.

Lemma silent_decode_all tok preds translations :
  silent P (decode_all tok preds translations).
Proof.
  revert translations. induction preds as [|o preds IH]; intros translations;
    cbn [decode_all]; silent_auto. apply IH.
Qed.

Lemma silent_predict self text t5_prefix mini_batch_size num_beams min_length
    max_length early_stopping kwargs :
  silent P (TransformersTranslator_predict self text t5_prefix mini_batch_size
              num_beams min_length max_length early_stopping kwargs).
Proof.
  unfold TransformersTranslator_predict, _tokenize, AdaptiveModel_get_preds.
  silent_auto; [apply silent_BaseLearner_get_preds | apply silent_decode_all].
Qed.

End SilentPipeline.

Lemma predict_constructed self text t5_prefix mini_batch_size num_beams min_length
    max_length early_stopping kwargs (w : World) :
  constructed (TransformersTranslator_predict self text t5_prefix mini_batch_size
                 num_beams min_length max_length early_stopping kwargs w).2
  = constructed w.
Proof. unfold constructed. by rewrite (silent_predict is_init). Qed.

Lemma TransformersTranslator_init_result (tok : Tokenizer) (m : Model) (w : World) :
  TransformersTranslator_init tok m w
  = (Return {| tokenizer := tok; model := m |},
     (_BaseLearner_set_as_dict true (set_learn_model m (record (EvInit tok m) w))).2).
Proof. reflexivity. Qed.

Lemma TransformersTranslator_load_constructed (name : string) (w w1 : World)
    (t : TransformersTranslator) :
  TransformersTranslator_load name w = (Return t, w1) ->
  constructed w1 = S (constructed w).
Proof.
  unfold TransformersTranslator_load.
  intros (tok & w2 & [= _ <-] & H)%bind_Return_inv.
  apply bind_Return_inv in H as (m & w3 & [= _ <-] & H).
  rewrite TransformersTranslator_init_result in H. injection H as _ <-.
  reflexivity.
Qed.

(** C9: when the registry holds no translator for an identifier that the
    loader resolves, the first [translate] with it constructs one
    translator and binds it in the registry, and a second [translate] with
    it runs [predict] on that bound translator and constructs none: over
    the two calls the trace gains one construction. *)
Theorem translate_constructs_once (self : EasyTranslator) (name : string)
    (text1 text2 : Text) (prefix1 prefix2 : string)
    (bs1 bs2 beams1 beams2 min1 min2 max1 max2 : Z) (stop1 stop2 : bool)
    (kw1 kw2 : list (string * Z)) (w w1 : World) (t : TransformersTranslator)
    (Hfresh : default None (translators self !! name) = None)
    (Hload : TransformersTranslator_load name w = (Return t, w1)) :
  let first := EasyTranslator_translate self text1 name prefix1 bs1 beams1 min1
                 max1 stop1 kw1 w in
  let second := EasyTranslator_translate first.1 text2 name prefix2 bs2 beams2
                  min2 max2 stop2 kw2 first.2.2 in
  translators first.1 !! name = Some (Some t)
  /\ constructed first.2.2 = S (constructed w)
  /\ second.2 = TransformersTranslator_predict t text2 prefix2 bs2 beams2 min2
                  max2 stop2 kw2 first.2.2
  /\ translators second.1 !! name = Some (Some t)
  /\ constructed second.2.2 = S (constructed w).
Proof.
  intros first.
  assert (exists d,
    first = ({| translators := <[name := Some t]> d |},
             TransformersTranslator_predict t text1 prefix1 bs1 beams1 min1 max1
               stop1 kw1 w1)) as [d Hfirst].
  { subst first. unfold EasyTranslator_translate, defaultdict_getitem.
    destruct (translators self !! name) as [[t'|]|]; [discriminate| |];
      rewrite Hload; eauto. }
  assert (constructed first.2.2 = S (constructed w)) as Hc.
  { rewrite Hfirst. cbn [snd]. rewrite predict_constructed.
    by eapply TransformersTranslator_load_constructed. }
  clearbody first. subst first. cbv zeta. cbn [fst snd] in *.
  unfold EasyTranslator_translate, defaultdict_getitem. cbn [translators].
  rewrite !lookup_insert_eq. cbn [fst snd translators].
  split; [done|]. split; [exact Hc|]. split; [done|].
  split; [apply lookup_insert_eq|]. by rewrite predict_constructed.
Qed.

(** C10: the learner and its callbacks belong to the class, not to the
    instance.  A model set through [a] is the learner's model for every
    instance: after [a] sets the placeholder, [get_preds] through any [b]
    fails as misconfigured; after [a] sets the routing flag, every
    [SetInputsCallback] of the learner carries it, for runs through any
    instance; and of two translators constructed in turn the first keeps
    its own [model] attribute while the learner holds the model of the
    second. *)
Theorem learner_shared_by_instances (a b : TransformersTranslator)
    (m : Model) (as_dict : bool) (dl : list (list Tensor)) (cbs : list Callback)
    (tok1 tok2 : Tokenizer) (m1 m2 : Model) (w : World) :
  learn_model (AdaptiveModel_set_model a m w).2 = m
  /\ AdaptiveModel_get_preds b (Some dl) cbs (AdaptiveModel_set_model a m w).2
     = _BaseLearner_get_preds (Some dl) cbs (set_learn_model m w)
  /\ AdaptiveModel_get_preds b (Some dl) cbs
       (AdaptiveModel_set_model a _NoopModel w).2
     = (Raise (ValueError "The default model is still set, you should override this with `_BaseLearner.set_model(x)`"),
        set_learn_model _NoopModel w)
  /\ (forall f, SetInputsCallback f ∈ learn_cbs (AdaptiveModel_set_as_dict a as_dict w).2
        -> f = as_dict)
  /\ (forall f, SetInputsCallback f ∈ learn_cbs w
        -> SetInputsCallback as_dict ∈ learn_cbs (AdaptiveModel_set_as_dict a as_dict w).2)
  /\ (let first := TransformersTranslator_init tok1 m1 w in
      let second := TransformersTranslator_init tok2 m2 first.2 in
      first.1 = Return {| tokenizer := tok1; model := m1 |}
      /\ second.1 = Return {| tokenizer := tok2; model := m2 |}
      /\ learn_model second.2 = m2).
Proof.
  repeat split; try reflexivity.
  - intros f. cbn. rewrite list_elem_of_In, in_map_iff.
    intros ([] & Heq & _); congruence.
  - intros f Hin. cbn. rewrite list_elem_of_In, in_map_iff.
    exists (SetInputsCallback f). by rewrite <- list_elem_of_In.
Qed.

End Properties.

(** * Concrete runs *)

(** With a batch size of 1 every text has its own batch and its own
    decoded string. *)
Example predict_batch_size_1 :
  (TransformersTranslator_predict (hf := toy) bart (Strs ["ab"; "cd"])
     "translate English to German" 1 1 0 128 true [] bart_world).1
  = Return ["ab"; "cd"].
Proof. reflexivity. Qed.

(** With the default batch size the two texts share a batch, and the one
    tensor of two rows is decoded into one string. *)
Example predict_batch_size_32 :
  (TransformersTranslator_predict (hf := toy) bart (Strs ["ab"; "cd"])
     "translate English to German" 32 1 0 128 true [] bart_world).1
  = Return ["abcd"].
Proof. reflexivity. Qed.

(** A translator built first generates with the model of the one built
    after it. *)
Example predict_generates_with_last_model :
  let first := TransformersTranslator_init (PreTrainedTokenizer "a")
                 (PreTrainedModel "a") _BaseLearner_init in
  let second := TransformersTranslator_init (PreTrainedTokenizer "b")
                  (PreTrainedModel "b") first.2 in
  filter is_generate
    (trace (TransformersTranslator_predict (hf := toy)
              {| tokenizer := PreTrainedTokenizer "a"; model := PreTrainedModel "a" |}
              (Str "x") "p" 1 1 0 128 true [] second.2).2)
  = [EvGenerate (PreTrainedModel "b") (Mat [[120]]) (Mat [[1]]) greedy].
Proof. reflexivity. Qed.

Lemma predict_two_texts_one_batch_witness :
  (TransformersTranslator_predict (hf := toy) bart (Strs ["ab"; "cd"])
     "translate English to German" 32 1 0 128 true [] bart_world).1
  = Return ["abcd"]
  /\ (length ["abcd"] <= 1)%nat.
Proof.
  split; [reflexivity|].
  apply (@predict_two_texts_one_batch toy bart "ab" "cd"
           "translate English to German" 32 1 0 128 true [] bart_world ["abcd"]);
    [lia | reflexivity].
Defined.

Lemma GeneratorCallback_aborts_batch_witness :
  GeneratorCallback_before_batch (hf := toy) greedy routed_world
  = (Raise CancelBatchException,
     set_pred (Mat [[7; 8]])
       (record (EvGenerate (PreTrainedModel "bart") (Mat [[7; 8]]) (Mat [[1; 1]]) greedy)
               routed_world))
  /\ filter is_forward
       (trace (Learner_one_batch (hf := toy)
                 (learn_cbs routed_world ++ [GeneratorCallback greedy; GatherPredsCallback])
                 [Mat [[7; 8]]; Mat [[1; 1]]] routed_world).2)
     = filter is_forward (trace routed_world).
Proof.
  destruct (@GeneratorCallback_aborts_batch toy greedy
              (learn_cbs routed_world ++ [GeneratorCallback greedy; GatherPredsCallback])
              [Mat [[7; 8]]; Mat [[1; 1]]] routed_world) as (_ & Hstore & Hskip).
  - vm_compute. do 3 apply list_elem_of_further. apply list_elem_of_here.
  - split; [|exact Hskip].
    apply Hstore; [discriminate | reflexivity..].
Defined.

Lemma hooks_run_in_priority_order_witness :
  order GatherInputsCallback < order (SetInputsCallback false) < order (GeneratorCallback greedy)
  /\ (0 < 1 < 3)%nat.
Proof.
  apply (@hooks_run_in_priority_order
           (_BaseLearner__cbs ++ [GeneratorCallback greedy; GatherPredsCallback])
           false greedy 0 1 3); reflexivity.
Defined.

Lemma predict_placeholder_fails_after_tokenizing_witness :
  TransformersTranslator_predict (hf := toy) bart (Strs ["ab"; "cd"])
    "translate English to German" 32 1 0 128 true [] _BaseLearner_init
  = (Raise (ValueError "The default model is still set, you should override this with `_BaseLearner.set_model(x)`"),
     record (EvTokenize (PreTrainedTokenizer "bart") ["ab"; "cd"]) _BaseLearner_init).
Proof.
  apply (@predict_placeholder_fails_after_tokenizing toy bart (Strs ["ab"; "cd"])
           "translate English to German" 32 1 0 128 true [] _BaseLearner_init);
    [reflexivity | lia].
Defined.

(** C3 as stated does not hold: in the store of a learner whose model was
    never set, [predict] has called the tokenizer by the time it fails. *)
Lemma predict_fails_before_tokenizing_counterexample :
  ~ fails_before_tokenizing
      (TransformersTranslator_predict (hf := toy) bart (Strs ["ab"; "cd"])
         "translate English to German" 32 1 0 128 true [] _BaseLearner_init)
      _BaseLearner_init.
Proof. intros [_ H]. vm_compute in H. discriminate. Qed.

Lemma translate_constructs_once_witness :
  constructed
    (EasyTranslator_translate (hf := toy)
       (EasyTranslator_translate (hf := toy) EasyTranslator_init (Str "hi")
          "t5-small" "translate English to German" 32 1 0 128 true []
          _BaseLearner_init).1
       (Str "yo") "t5-small" "translate English to German" 32 1 0 128 true []
       (EasyTranslator_translate (hf := toy) EasyTranslator_init (Str "hi")
          "t5-small" "translate English to German" 32 1 0 128 true []
          _BaseLearner_init).2.2).2.2
  = 1%nat.
Proof.
  apply (@translate_constructs_once toy EasyTranslator_init "t5-small"
           (Str "hi") (Str "yo")
           "translate English to German" "translate English to German"
           32 32 1 1 0 0 128 128 true true [] [] _BaseLearner_init
           (TransformersTranslator_load (hf := toy) "t5-small" _BaseLearner_init).2
           {| tokenizer := PreTrainedTokenizer "t5-small";
              model := T5ForConditionalGeneration "t5-small" |});
    reflexivity.
Defined.

Lemma learner_shared_by_instances_witness :
  SetInputsCallback false ∈ learn_cbs (AdaptiveModel_set_as_dict bart false bart_world).2.
Proof.
  destruct (@learner_shared_by_instances toy bart bart (PreTrainedModel "x") false
              [] [] (PreTrainedTokenizer "a") (PreTrainedTokenizer "b")
              (PreTrainedModel "a") (PreTrainedModel "b") bart_world)
    as (_ & _ & _ & _ & Hflag & _).
  apply (Hflag true). vm_compute.
  apply list_elem_of_further, list_elem_of_here.
Defined.

(** * More of the pipeline *)

Section Hooks.
Context {hf : Transformers}.

(** ** [GatherInputsCallback.before_batch] on any batch *)

(** X1: A batch with fewer than two elements makes the hook raise
    [IndexError], and nothing is published. *)
Theorem GatherInputsCallback_short_batch (w : World) (ts : list Tensor)
    (Hxb : learn_xb w = XbTuple ts) (Hlen : (length ts < 2)%nat) :
  GatherInputsCallback_before_batch w = (Raise IndexError, w).
Proof.
  unfold GatherInputsCallback_before_batch, bind, get, lift. rewrite Hxb.
  destruct ts as [|t0 [|t1 ts]]; cbn in *; [reflexivity..|lia].
Qed.

Lemma GatherInputsCallback_before_batch_gathered (w : World) (t0 t1 : Tensor)
    (rest : list Tensor) :
  learn_xb w = XbTuple (t0 :: t1 :: rest) ->
  GatherInputsCallback_before_batch w
  = (Return tt, set_inputs (gathered t0 t1 rest) w).
Proof.
  intros Hxb.
  unfold GatherInputsCallback_before_batch, bind, get, lift, modify, ret.
  rewrite Hxb. destruct rest as [|t2 rest]; reflexivity.
Qed.

Lemma dict_values_gathered (t0 t1 : Tensor) (rest : list Tensor) :
  dict_values (gathered t0 t1 rest) = take 3 (t0 :: t1 :: rest).
Proof. destruct rest as [|t2 rest]; reflexivity. Qed.

(** X2: A batch of two or more elements gives the mapping of its first two
    elements and, when there is one, its third; what follows the third is
    left out, and [xb] is not touched. *)
Theorem GatherInputsCallback_long_batch (w : World) (t0 t1 : Tensor)
    (rest : list Tensor) (Hxb : learn_xb w = XbTuple (t0 :: t1 :: rest)) :
  GatherInputsCallback_before_batch w
  = (Return tt, set_inputs (gathered t0 t1 rest) w)
  /\ dict_values (gathered t0 t1 rest) = take 3 (t0 :: t1 :: rest).
Proof.
  split.
  - by apply GatherInputsCallback_before_batch_gathered.
  - apply dict_values_gathered.
Qed.

(** X3: With [as_dict] false the two hooks in turn hand the loop the first
    three elements of the batch: the batch itself up to length 3. *)
Theorem gather_then_set_inputs_truncates (w : World) (t0 t1 : Tensor)
    (rest : list Tensor) (Hxb : learn_xb w = XbTuple (t0 :: t1 :: rest)) :
  (GatherInputsCallback_before_batch ;; SetInputsCallback_before_batch false) w
  = (Return tt,
     set_xb (XbTuple (take 3 (t0 :: t1 :: rest)))
            (set_inputs (gathered t0 t1 rest) w)).
Proof.
  unfold bind at 1.
  rewrite (GatherInputsCallback_before_batch_gathered w t0 t1 rest Hxb).
  rewrite <- (dict_values_gathered t0 t1 rest).
  reflexivity.
Qed.

(** X4: The hooks of a [predict] run on one batch: generation is called on
    the first and second elements of the batch, and on nothing else of it,
    also when the batch has a third element. *)
Theorem hooks_generate_from_first_two (req : GenerationRequest) (w : World)
    (t0 t1 pred : Tensor) (rest : list Tensor)
    (Hxb : learn_xb w = XbTuple (t0 :: t1 :: rest))
    (Hmodel : learn_model w <> _NoopModel)
    (Hgen : generate (learn_model w) t0 t1 req = Return pred) :
  run_hooks before_batch
    [GatherInputsCallback; SetInputsCallback true; CudaCallback;
     GeneratorCallback req; GatherPredsCallback] w
  = (Raise CancelBatchException,
     set_pred pred
       (record (EvGenerate (learn_model w) t0 t1 req)
          (set_xb (XbDict (gathered t0 t1 rest))
                  (set_inputs (gathered t0 t1 rest) w)))).
Proof.
  cbn [run_hooks before_batch]. unfold bind at 1.
  rewrite (GatherInputsCallback_before_batch_gathered w t0 t1 rest Hxb).
  unfold bind at 1. cbn [SetInputsCallback_before_batch].
  unfold SetInputsCallback_before_batch, bind at 1, get.
  cbn [learn_inputs set_inputs negb modify fst snd].
  unfold bind at 1, ret. unfold bind at 1.
  unfold GeneratorCallback_before_batch, bind at 1, get.
  cbn [learn_model set_xb set_inputs learn_xb].
  destruct (learn_model w) eqn:Hm; [done|..];
    unfold bind, lift, modify, raise; cbn [xb_item dict_get gathered String.eqb];
    cbn; rewrite Hgen; reflexivity.
Qed.

(** ** The routing flag and the bound model *)

Lemma set_as_dict_order (as_dict : bool) (cb : Callback) :
  order (match cb with
         | SetInputsCallback _ => SetInputsCallback as_dict
         | _ => cb
         end) = order cb.
Proof. by destruct cb. Qed.

(** X5: [set_as_dict] changes flags and nothing else: the callbacks keep their
    priorities in their places, so the hooks run in the order they ran in
    before; the last call decides the flag; and the call commutes with
    [set_model]. *)
Theorem set_as_dict_only_flags (f g : bool) (m : Model) (w : World) :
  map order (learn_cbs (_BaseLearner_set_as_dict f w).2) = map order (learn_cbs w)
  /\ learn_model (_BaseLearner_set_as_dict f w).2 = learn_model w
  /\ (_BaseLearner_set_as_dict g (_BaseLearner_set_as_dict f w).2).2
     = (_BaseLearner_set_as_dict g w).2
  /\ (_BaseLearner_set_model m (_BaseLearner_set_as_dict f w).2).2
     = (_BaseLearner_set_as_dict f (_BaseLearner_set_model m w).2).2.
Proof.
  split; [|split; [reflexivity|split; [|reflexivity]]].
  - cbn. rewrite map_map. apply map_ext. intros cb. apply set_as_dict_order.
  - unfold _BaseLearner_set_as_dict, modify, set_learn_cbs. cbn. f_equal.
    rewrite map_map. apply map_ext. by intros [].
Qed.

End Hooks.

(** ** What a run keeps *)

Section Preserved.
Context {hf : Transformers}.

Lemma preserves_ret {A} (I : World -> Prop) (a : A) : preserves I (ret a).
Proof. by intros w. Qed.

Lemma preserves_raise {A} (I : World -> Prop) e : preserves I (@raise A e).
Proof. by intros w. Qed.

Lemma preserves_lift {A} (I : World -> Prop) (o : Outcome A) : preserves I (lift o).
Proof. by intros w. Qed.

Lemma preserves_get (I : World -> Prop) : preserves I get.
Proof. by intros w. Qed.

Lemma preserves_bind {A B} (I : World -> Prop) (c : M A) (k : A -> M B) :
  preserves I c -> (forall a, preserves I (k a)) -> preserves I (bind c k).
Proof.
  intros Hc Hk w Hw. unfold bind. specialize (Hc w Hw).
  destruct (c w) as [[a|e] w']; cbn in *; [by apply Hk | done].
Qed.

Lemma preserves_modify (I : World -> Prop) (f : World -> World) :
  (forall w, I w -> I (f w)) -> preserves I (modify f).
Proof. intros Hf w Hw. by apply Hf. Qed.

Lemma preserves_with_cancel_batch (I : World -> Prop) (c : M unit) :
  preserves I c -> preserves I (with_cancel_batch c).
Proof.
  intros Hc w Hw. unfold with_cancel_batch. specialize (Hc w Hw).
  destruct (c w) as [[[]|[]] w']; done.
Qed.

Lemma preserves_run_hooks (I : World -> Prop) (hook : Callback -> M unit)
    (cbs : list Callback) :
  Forall (fun cb => preserves I (hook cb)) cbs -> preserves I (run_hooks hook cbs).
Proof.
  induction 1 as [|cb cbs Hcb _ IH]; cbn [run_hooks].
  - apply preserves_ret.
  - apply preserves_bind; [done | by intros _].
Qed.

Lemma Forall_sorted (Q : Callback -> Prop) (cbs : list Callback) :
  Forall Q cbs -> Forall Q (sorted cbs).
Proof. intros H. by rewrite sorted_perm. Qed.

(** A property of the store that the fields a batch writes do not bear
    on, that the events of the collaborators keep, and that a generation
    event keeps when it names the learner's model and a request [R]
    admits. *)
Variable I : World -> Prop.
Variable R : GenerationRequest -> Prop.
Hypothesis I_set_xb : forall x w, I w -> I (set_xb x w).
Hypothesis I_set_inputs : forall d w, I w -> I (set_inputs d w).
Hypothesis I_set_pred : forall p w, I w -> I (set_pred p w).
Hypothesis I_set_n_inp : forall n w, I w -> I (set_n_inp n w).
Hypothesis I_tokenize : forall tok l w, I w -> I (record (EvTokenize tok l) w).
Hypothesis I_decode : forall tok o w, I w -> I (record (EvDecode tok o) w).
Hypothesis I_forward : forall w, I w -> I (record (EvForward (learn_model w) (learn_xb w)) w).
Hypothesis I_generate :
  forall i a r w, R r -> I w -> I (record (EvGenerate (learn_model w) i a r) w).
Hypothesis I_cbs : forall w, I w -> Forall (generator_requests R) (learn_cbs w).

Lemma preserves_GatherInputsCallback_before_batch :
  preserves I GatherInputsCallback_before_batch.
Proof.
  unfold GatherInputsCallback_before_batch.
  apply preserves_bind; [apply preserves_get|intros w0].
  apply preserves_bind; [apply preserves_lift|intros t0].
  apply preserves_bind; [apply preserves_lift|intros t1].
  apply preserves_bind.
  - destruct (_ <? _)%nat; [|apply preserves_ret].
    apply preserves_bind; [apply preserves_lift|intros t2]. apply preserves_ret.
  - intros d. apply preserves_modify. auto.
Qed.

Lemma preserves_SetInputsCallback_before_batch (as_dict : bool) :
  preserves I (SetInputsCallback_before_batch as_dict).
Proof.
  unfold SetInputsCallback_before_batch.
  apply preserves_bind; [apply preserves_get|intros w0].
  destruct (learn_inputs w0); [|apply preserves_raise].
  destruct (negb as_dict); apply preserves_modify; auto.
Qed.

Lemma preserves_GeneratorCallback_before_batch (req : GenerationRequest) :
  R req -> preserves I (GeneratorCallback_before_batch req).
Proof.
  intros Hreq w Hw.
  unfold GeneratorCallback_before_batch, bind, get, lift, modify, raise. cbn.
  pose proof (fun i a => I_generate i a req w Hreq Hw) as Hrec.
  destruct (learn_model w); cbn; [done|..];
    (destruct (xb_item (learn_xb w) "input_ids") as [i|]; cbn; [|done];
     destruct (xb_item (learn_xb w) "attention_mask") as [a|]; cbn; [|done];
     destruct (generate _ i a req); cbn; [apply I_set_pred|]; apply Hrec).
Qed.

Lemma preserves_before_batch (cb : Callback) :
  generator_requests R cb -> preserves I (before_batch cb).
Proof.
  destruct cb; cbn [before_batch generator_requests]; intros Hcb;
    auto using preserves_ret, preserves_GatherInputsCallback_before_batch,
      preserves_SetInputsCallback_before_batch,
      preserves_GeneratorCallback_before_batch.
Qed.

Lemma preserves_do_one_batch : preserves I _do_one_batch.
Proof.
  intros w Hw. unfold _do_one_batch, bind, get, modify, lift. cbn.
  destruct (forward _ _); cbn; auto.
Qed.

Lemma preserves_Learner_one_batch (cbs : list Callback) (b : list Tensor) :
  Forall (generator_requests R) cbs -> preserves I (Learner_one_batch cbs b).
Proof.
  intros Hcbs. unfold Learner_one_batch.
  apply preserves_bind; [apply preserves_get|intros w0].
  apply preserves_bind; [apply preserves_modify; auto|intros _].
  apply preserves_with_cancel_batch.
  apply preserves_bind; [|intros _; apply preserves_do_one_batch].
  apply preserves_run_hooks. apply Forall_sorted.
  eapply Forall_impl; [exact Hcbs|]. apply preserves_before_batch.
Qed.

Lemma preserves_Learner_all_batches (cbs : list Callback)
    (dl : list (list Tensor)) (preds : list Tensor) :
  Forall (generator_requests R) cbs ->
  preserves I (Learner_all_batches cbs dl preds).
Proof.
  intros Hcbs. revert preds.
  induction dl as [|b dl IH]; intros preds; cbn [Learner_all_batches].
  - apply preserves_ret.
  - apply preserves_bind; [by apply preserves_Learner_one_batch|intros _].
    apply preserves_bind; [apply preserves_get|intros w0]. apply IH.
Qed.

Lemma preserves_Learner_get_preds (dl : list (list Tensor)) (cbs : list Callback) :
  Forall (generator_requests R) cbs -> preserves I (Learner_get_preds dl cbs).
Proof.
  intros Hcbs w Hw. unfold Learner_get_preds, bind at 1, get.
  assert (Forall (generator_requests R)
            (learn_cbs w ++ cbs ++ [GatherPredsCallback])) as Hall.
  { rewrite !Forall_app. split; [by apply I_cbs|]. split; [done|].
    by repeat constructor. }
  cbv beta iota zeta. apply preserves_bind; [| |exact Hw].
  - apply preserves_run_hooks. apply Forall_sorted, Forall_forall.
    intros [] _; cbn [before_validate]; try apply preserves_ret.
    unfold GatherInputsCallback_before_validate.
    destruct (one_batch dl); [apply preserves_modify; auto | apply preserves_raise].
  - intros _. by apply preserves_Learner_all_batches.
Qed.

Lemma preserves_BaseLearner_get_preds (dl : option (list (list Tensor)))
    (cbs : list Callback) :
  Forall (generator_requests R) cbs -> preserves I (_BaseLearner_get_preds dl cbs).
Proof.
  intros Hcbs. unfold _BaseLearner_get_preds.
  destruct dl as [dl|]; [|apply preserves_raise].
  apply preserves_bind; [apply preserves_get|intros w0].
  destruct (learn_model w0); [apply preserves_raise|..];
    by apply preserves_Learner_get_preds.
Qed.

Lemma preserves_decode_all (tok : Tokenizer) (preds : list Tensor)
    (translations : list string) :
  preserves I (decode_all tok preds translations).
Proof.
  revert translations. induction preds as [|o preds IH]; intros translations;
    cbn [decode_all]; [apply preserves_ret|].
  apply preserves_bind; [apply preserves_modify; auto|intros _]. apply IH.
Qed.

Lemma preserves_predict (self : TransformersTranslator) (text : Text)
    (t5_prefix : string) (mini_batch_size num_beams min_length max_length : Z)
    (early_stopping : bool) (kwargs : list (string * Z)) :
  R {| num_beams := num_beams; min_length := min_length;
       max_length := max_length; early_stopping := early_stopping;
       kwargs := kwargs |} ->
  preserves I (TransformersTranslator_predict self text t5_prefix mini_batch_size
                 num_beams min_length max_length early_stopping kwargs).
Proof.
  intros Hreq. unfold TransformersTranslator_predict, _tokenize.
  apply preserves_bind.
  { apply preserves_bind; [apply preserves_modify; auto|intros _].
    apply preserves_ret. }
  intros dataset. apply preserves_bind; [apply preserves_lift|intros dl].
  apply preserves_bind.
  - unfold AdaptiveModel_get_preds. apply preserves_BaseLearner_get_preds.
    by repeat constructor.
  - intros preds. apply preserves_decode_all.
Qed.

End Preserved.

(** ** What [predict] does and does not do *)

Section Predict.
Context {hf : Transformers}.

Lemma generator_requests_True (cbs : list Callback) :
  Forall (generator_requests (fun _ => True)) cbs.
Proof. apply Forall_forall. by intros []. Qed.

Lemma predict_model_cbs (self : TransformersTranslator)
    (text : Text) (t5_prefix : string)
    (mini_batch_size num_beams min_length max_length : Z)
    (early_stopping : bool) (kwargs : list (string * Z)) (w : World) :
  learn_model (TransformersTranslator_predict self text t5_prefix mini_batch_size
                 num_beams min_length max_length early_stopping kwargs w).2
  = learn_model w
  /\ learn_cbs (TransformersTranslator_predict self text t5_prefix mini_batch_size
                  num_beams min_length max_length early_stopping kwargs w).2
     = learn_cbs w.
Proof.
  apply (preserves_predict
           (fun w' => learn_model w' = learn_model w /\ learn_cbs w' = learn_cbs w)
           (fun _ => True)); try done.
  intros w' _. apply generator_requests_True.
Qed.

(** X6: [predict] leaves the learner's model and its callbacks as they were:
    the generation hook of the call is not registered any more when the
    call ends, whatever its outcome. *)
Theorem predict_keeps_model_and_callbacks (self : TransformersTranslator)
    (text : Text) (t5_prefix : string)
    (mini_batch_size num_beams min_length max_length : Z)
    (early_stopping : bool) (kwargs : list (string * Z)) (w : World) :
  learn_model (TransformersTranslator_predict self text t5_prefix mini_batch_size
                 num_beams min_length max_length early_stopping kwargs w).2
  = learn_model w
  /\ learn_cbs (TransformersTranslator_predict self text t5_prefix mini_batch_size
                  num_beams min_length max_length early_stopping kwargs w).2
     = learn_cbs w.
Proof. apply predict_model_cbs. Qed.

Lemma predict_generated_by (self : TransformersTranslator)
    (text : Text) (t5_prefix : string)
    (mini_batch_size num_beams min_length max_length : Z)
    (early_stopping : bool) (kwargs : list (string * Z)) (w : World)
    (Hcbs : Forall (generator_requests
                      (eq {| num_beams := num_beams; min_length := min_length;
                             max_length := max_length;
                             early_stopping := early_stopping;
                             kwargs := kwargs |}))
                   (learn_cbs w)) :
  exists new,
    trace (TransformersTranslator_predict self text t5_prefix mini_batch_size
             num_beams min_length max_length early_stopping kwargs w).2
    = (new ++ trace w)%list
    /\ Forall (generated_by (learn_model w)
                 {| num_beams := num_beams; min_length := min_length;
                    max_length := max_length; early_stopping := early_stopping;
                    kwargs := kwargs |}) new.
Proof.
  set (req := {| num_beams := num_beams |}) in *.
  pose (I := fun w' : World =>
    learn_model w' = learn_model w
    /\ Forall (generator_requests (eq req)) (learn_cbs w')
    /\ exists new, trace w' = (new ++ trace w)%list
                   /\ Forall (generated_by (learn_model w) req) new).
  assert (forall e w', generated_by (learn_model w) req e -> I w' -> I (record e w'))
    as Hrecord.
  { intros e w' He (Hm & Hc & new & Ht & Hnew). split; [done|]. split; [done|].
    exists (e :: new). cbn. rewrite Ht. split; [done|]. by constructor. }
  assert (I (TransformersTranslator_predict self text t5_prefix mini_batch_size
               num_beams min_length max_length early_stopping kwargs w).2)
    as (_ & _ & Hnew); [|exact Hnew].
  apply (preserves_predict I (eq req)); try done.
  - intros tok l w'. by apply Hrecord.
  - intros tok o w'. by apply Hrecord.
  - intros w'. by apply Hrecord.
  - intros i a r w' <- Hw'. apply Hrecord; [|done].
    destruct Hw' as (-> & _). by split.
  - by intros w' (_ & Hc & _).
  - split; [done|]. split; [done|]. by exists [].
Qed.

(** X7: Every generation call of a [predict] is made on the learner's model,
    not on the translator's own, and with the request made of the
    arguments of the call, the same for every batch. *)
Theorem predict_generates_with_learner_model (self : TransformersTranslator)
    (text : Text) (t5_prefix : string)
    (mini_batch_size num_beams min_length max_length : Z)
    (early_stopping : bool) (kwargs : list (string * Z)) (w : World)
    (Hcbs : Forall (generator_requests
                      (eq {| num_beams := num_beams; min_length := min_length;
                             max_length := max_length;
                             early_stopping := early_stopping;
                             kwargs := kwargs |}))
                   (learn_cbs w)) :
  exists new,
    trace (TransformersTranslator_predict self text t5_prefix mini_batch_size
             num_beams min_length max_length early_stopping kwargs w).2
    = (new ++ trace w)%list
    /\ Forall (generated_by (learn_model w)
                 {| num_beams := num_beams; min_length := min_length;
                    max_length := max_length; early_stopping := early_stopping;
                    kwargs := kwargs |}) new.
Proof. by apply predict_generated_by. Qed.

(** X8: The task prefix bears on the call only when the translator's own
    model is a T5 model. *)
Theorem predict_prefix_only_for_T5 (self : TransformersTranslator) (text : Text)
    (prefix1 prefix2 : string)
    (mini_batch_size num_beams min_length max_length : Z)
    (early_stopping : bool) (kwargs : list (string * Z)) (w : World)
    (Hmodel : forall name, model self <> T5ForConditionalGeneration name) :
  TransformersTranslator_predict self text prefix1 mini_batch_size
    num_beams min_length max_length early_stopping kwargs w
  = TransformersTranslator_predict self text prefix2 mini_batch_size
      num_beams min_length max_length early_stopping kwargs w.
Proof.
  unfold TransformersTranslator_predict.
  destruct (model self) as [|name|name]; [reflexivity| |reflexivity].
  by destruct (Hmodel name).
Qed.

(** X9: [predict] calls the tokenizer once, on all the texts of the call
    together, prefixed one by one for a T5 model; this holds for every
    batch size and every outcome of the call. *)
Theorem predict_tokenizes_once (self : TransformersTranslator)
    (l : list string) (t5_prefix : string)
    (mini_batch_size num_beams min_length max_length : Z)
    (early_stopping : bool) (kwargs : list (string * Z)) (w : World) :
  filter is_tokenize
    (trace (TransformersTranslator_predict self (Strs l) t5_prefix mini_batch_size
              num_beams min_length max_length early_stopping kwargs w).2)
  = EvTokenize (tokenizer self)
      (match model self with
       | T5ForConditionalGeneration _ =>
           map (fun t => (t5_prefix ++ ": " ++ t)%string) l
       | _ => l
       end)
    :: filter is_tokenize (trace w).
Proof.
  unfold TransformersTranslator_predict.
  generalize (match model self with
              | T5ForConditionalGeneration _ =>
                  map (fun t => (t5_prefix ++ ": " ++ t)%string) l
              | _ => l
              end). intros texts.
  unfold bind at 1. unfold _tokenize, bind at 1, modify, ret. cbn [fst snd].
  match goal with
  | |- filter _ (trace (?k ?w1).2) = _ =>
      assert (silent is_tokenize k) as Hk; [|rewrite (Hk w1)]
  end.
  - apply silent_bind; [apply silent_lift|intros dl].
    apply silent_bind; [|intros preds; by apply silent_decode_all].
    unfold AdaptiveModel_get_preds. by apply silent_BaseLearner_get_preds.
  - reflexivity.
Qed.

Lemma Learner_one_batch_skips_forward (req : GenerationRequest)
    (cbs : list Callback) (b : list Tensor) :
  GeneratorCallback req ∈ cbs -> silent is_forward (Learner_one_batch cbs b).
Proof.
  intros Hin w. unfold Learner_one_batch, bind at 1, get. unfold bind at 1, modify.
  cbn [fst snd]. set (w1 := set_xb _ w).
  change (filter is_forward (trace w)) with (filter is_forward (trace w1)).
  unfold with_cancel_batch, bind.
  assert (GeneratorCallback req ∈ sorted cbs) as Hin' by (by rewrite sorted_perm).
  destruct (run_hooks_before_batch_raises req (sorted cbs) w1 Hin') as [e He].
  pose proof (silent_run_hooks is_forward before_batch (sorted cbs)
                (fun cb => silent_before_batch is_forward cb
                             (fun _ _ _ _ => eq_refl)) w1) as Hs.
  destruct (run_hooks before_batch (sorted cbs) w1) as [[[]|e'] w2];
    cbn in He; [done|].
  cbn in Hs. destruct e'; exact Hs.
Qed.

Lemma Learner_all_batches_skips_forward (req : GenerationRequest)
    (cbs : list Callback) (dl : list (list Tensor)) (preds : list Tensor) :
  GeneratorCallback req ∈ cbs -> silent is_forward (Learner_all_batches cbs dl preds).
Proof.
  intros Hin. revert preds.
  induction dl as [|b dl IH]; intros preds; cbn [Learner_all_batches].
  - apply silent_ret.
  - apply silent_bind; [by eapply Learner_one_batch_skips_forward|intros _].
    apply silent_bind; [apply silent_get|intros w0]. apply IH.
Qed.

(** X10: [predict] never runs the default computation of the loop: no batch of
    the call reaches the forward pass of the model, whatever the store,
    the callbacks of the learner or the outcome. *)
Theorem predict_never_forwards (self : TransformersTranslator) (text : Text)
    (t5_prefix : string) (mini_batch_size num_beams min_length max_length : Z)
    (early_stopping : bool) (kwargs : list (string * Z)) (w : World) :
  filter is_forward
    (trace (TransformersTranslator_predict self text t5_prefix mini_batch_size
              num_beams min_length max_length early_stopping kwargs w).2)
  = filter is_forward (trace w).
Proof.
  revert w. change (silent is_forward
    (TransformersTranslator_predict self text t5_prefix mini_batch_size
       num_beams min_length max_length early_stopping kwargs)).
  unfold TransformersTranslator_predict, _tokenize.
  apply silent_bind.
  { apply silent_bind; [by apply silent_record|intros _]. apply silent_ret. }
  intros dataset. apply silent_bind; [apply silent_lift|intros dl].
  apply silent_bind; [|intros preds; by apply silent_decode_all].
  unfold AdaptiveModel_get_preds, _BaseLearner_get_preds.
  apply silent_bind; [apply silent_get|intros w0].
  destruct (learn_model w0); [apply silent_raise|..];
    (unfold Learner_get_preds;
     apply silent_bind; [apply silent_get|intros w1];
     apply silent_bind;
     [ apply silent_run_hooks; intros []; cbn [before_validate];
       try apply silent_ret; unfold GatherInputsCallback_before_validate;
       destruct (one_batch dl); [by apply silent_modify | apply silent_raise]
     | intros _; eapply Learner_all_batches_skips_forward;
       rewrite !elem_of_app; right; left; apply list_elem_of_here ]).
Qed.

End Predict.

(** ** Runs over any batch size *)

Lemma batch_sampler_length {A} (n : nat) (batch l : list A) :
  (length batch < n)%nat ->
  (length (batch_sampler n batch l) = (length batch + length l + n - 1) / n)%nat.
Proof.
  revert batch. induction l as [|x l IH]; intros batch Hlt; cbn [batch_sampler].
  - destruct batch as [|y batch]; cbn [length].
    + symmetry. apply Nat.div_small. lia.
    + apply (Nat.div_unique _ n 1 (length batch)); cbn in *; lia.
  - rewrite length_app. cbn [length].
    destruct (Nat.eqb_spec (length batch + 1) n) as [Heq|Hne].
    + cbn [length]. rewrite IH by (cbn; lia). cbn [length].
      replace (length batch + S (length l) + n - 1)%nat
        with (1 * n + (0 + length l + n - 1))%nat by lia.
      rewrite Nat.div_add_l by lia. lia.
    + rewrite IH by (rewrite length_app; cbn; lia).
      rewrite length_app. cbn [length]. f_equal. lia.
Qed.

Lemma batch_sampler_cons {A} (n : nat) (x : A) (l : list A) :
  (0 < n)%nat -> exists b bs, batch_sampler n [] (x :: l) = b :: bs.
Proof.
  intros Hn.
  pose proof (batch_sampler_length n [] (x :: l) Hn) as Hlen.
  destruct (batch_sampler n [] (x :: l)) as [|b bs]; [|eauto].
  cbn [length] in Hlen. exfalso.
  assert (1 <= (0 + S (length l) + n - 1) / n)%nat; [|lia].
  apply Nat.div_le_lower_bound; lia.
Qed.

Section AnyBatchSize.
Context {hf : Transformers}.
Variable req : GenerationRequest.
Variable m : Model.
Variable gen : Tensor -> Tensor -> Tensor.
Hypothesis m_set : m <> _NoopModel.
Hypothesis gen_returns : forall i a, generate m i a req = Return (gen i a).




End AnyBatchSize.

(** ** Runs that fail *)

Section Failures.
Context {hf : Transformers}.

(** X12: A batch size that is not positive is refused by the loader: [predict]
    fails with a [ValueError] once the texts are tokenized and before the
    learner is looked at, so also when its model is still the
    placeholder. *)
Theorem predict_rejects_batch_size (self : TransformersTranslator) (text : Text)
    (t5_prefix : string) (mini_batch_size num_beams min_length max_length : Z)
    (early_stopping : bool) (kwargs : list (string * Z)) (w : World)
    (Hbs : mini_batch_size <= 0) :
  exists msg,
    TransformersTranslator_predict self text t5_prefix mini_batch_size
      num_beams min_length max_length early_stopping kwargs w
    = (Raise (ValueError msg),
       record (EvTokenize (tokenizer self) (prepared self text t5_prefix)) w).
Proof.
  eexists. unfold TransformersTranslator_predict.
  fold (prepared self text t5_prefix).
  unfold bind at 1. unfold _tokenize, bind at 1, modify, ret. cbn [fst snd].
  unfold bind at 1, lift, DataLoader.
  destruct (Z.leb_spec mini_batch_size 0); [reflexivity|lia].
Qed.

Lemma run_hooks_before_validate_empty (cbs : list Callback) (w : World) :
  GatherInputsCallback ∈ cbs ->
  run_hooks (before_validate []) cbs w = (Raise TypeError, w).
Proof.
  induction cbs as [|cb cbs IH]; intros Hin.
  - by apply not_elem_of_nil in Hin.
  - cbn [run_hooks]. unfold bind.
    destruct cb; try reflexivity; cbn [before_validate]; unfold ret;
      apply IH; by apply elem_of_cons in Hin as [|].
Qed.

(** X13: A loader with no batch makes [get_preds] fail with a [TypeError] when
    the model is set: [one_batch] gives nothing and the gathering hook
    takes the length of it; no batch stage runs and the store is as it
    was. *)
Theorem get_preds_empty_loader (cbs : list Callback) (w : World)
    (Hmodel : learn_model w <> _NoopModel)
    (Hgather : GatherInputsCallback ∈ learn_cbs w) :
  _BaseLearner_get_preds (Some []) cbs w = (Raise TypeError, w).
Proof.
  unfold _BaseLearner_get_preds, bind at 1, get.
  assert (Learner_get_preds [] cbs w = (Raise TypeError, w)) as H.
  { unfold Learner_get_preds, bind at 1, get. unfold bind at 1.
    rewrite run_hooks_before_validate_empty; [done|].
    rewrite sorted_perm, elem_of_app. by left. }
  by destruct (learn_model w).
Qed.

Lemma Learner_get_preds_first_batch_raises (req : GenerationRequest)
    (f : bool) (e : Exception) (i a : Tensor) (dl : list (list Tensor))
    (w w' : World) :
  learn_cbs w = [CudaCallback; SetInputsCallback f; GatherInputsCallback] ->
  Learner_one_batch
    ([CudaCallback; SetInputsCallback f; GatherInputsCallback]
       ++ [GeneratorCallback req] ++ [GatherPredsCallback])%list
    [i; a] (set_n_inp 2 w) = (Raise e, w') ->
  Learner_get_preds ([i; a] :: dl) [GeneratorCallback req] w = (Raise e, w').
Proof.
  intros Hc Hone. unfold Learner_get_preds, bind at 1, get. rewrite Hc.
  rewrite sorted_predict_hooks. unfold bind at 1.
  change (run_hooks _ _ w) with (Return tt, set_n_inp 2 w).
  cbn [Learner_all_batches]. unfold bind at 1. by rewrite Hone.
Qed.

Lemma predict_first_batch_raises (self : TransformersTranslator)
    (s : string) (l : list string) (t5_prefix : string)
    (mini_batch_size : Z) (req : GenerationRequest) (f : bool) (e : Exception)
    (w : World) (after : Tensor -> Tensor -> World -> World) :
  0 < mini_batch_size ->
  learn_model w <> _NoopModel ->
  learn_cbs w = [CudaCallback; SetInputsCallback f; GatherInputsCallback] ->
  (forall i a w1,
     learn_model w1 = learn_model w -> learn_cbs w1 = learn_cbs w ->
     Learner_one_batch
       ([CudaCallback; SetInputsCallback f; GatherInputsCallback]
          ++ [GeneratorCallback req] ++ [GatherPredsCallback])%list
       [i; a] (set_n_inp 2 w1) = (Raise e, after i a w1)) ->
  exists i a,
    TransformersTranslator_predict self (Strs (s :: l)) t5_prefix mini_batch_size
      (num_beams req) (min_length req) (max_length req) (early_stopping req)
      (kwargs req) w
    = (Raise e,
       after i a
         (record (EvTokenize (tokenizer self)
                    (prepared self (Strs (s :: l)) t5_prefix)) w)).
Proof.
  intros Hbs Hm Hc Hone.
  assert (req = {| num_beams := num_beams req; min_length := min_length req;
                   max_length := max_length req;
                   early_stopping := early_stopping req; kwargs := kwargs req |})
    as Hreq by (by destruct req).
  unfold TransformersTranslator_predict.
  fold (prepared self (Strs (s :: l)) t5_prefix).
  pose proof (prepared_length self (s :: l) t5_prefix) as Hlen.
  destruct (prepared self (Strs (s :: l)) t5_prefix) as [|t texts]; [done|].
  clear Hlen. rewrite <- Hreq.
  destruct (batch_sampler_cons (Z.to_nat mini_batch_size)
              (encode_plus (tokenizer self) t)
              (map (encode_plus (tokenizer self)) texts)) as (b & bs & Hbatches);
    [lia|].
  exists (Mat b.*1), (Mat b.*2).
  unfold bind at 1. unfold _tokenize, bind at 1, modify, ret. cbn [fst snd].
  unfold bind at 1, lift, DataLoader.
  destruct (Z.leb_spec mini_batch_size 0); [lia|].
  cbn [map]. rewrite Hbatches.
  set (w1 := record _ w).
  unfold bind at 1, AdaptiveModel_get_preds, _BaseLearner_get_preds, bind at 1, get.
  assert (Learner_get_preds (map collate (b :: bs)) [GeneratorCallback req] w1
          = (Raise e, after (Mat b.*1) (Mat b.*2) w1)) as Hgp.
  { apply (Learner_get_preds_first_batch_raises req f); [exact Hc|].
    by apply Hone. }
  assert (learn_model w1 = learn_model w) as Hm1 by reflexivity.
  destruct (learn_model w1) eqn:Hmodel; [by rewrite <- Hm1 in Hm|..];
    by rewrite Hgp.
Qed.

Lemma Learner_one_batch_list_xb (req : GenerationRequest) (i a : Tensor)
    (w : World) :
  learn_model w <> _NoopModel ->
  exists w', Learner_one_batch
               ([CudaCallback; SetInputsCallback false; GatherInputsCallback]
                  ++ [GeneratorCallback req] ++ [GatherPredsCallback])%list
               [i; a] (set_n_inp 2 w) = (Raise TypeError, w')
             /\ trace w' = trace w.
Proof.
  intros Hm. destruct w as [m cbs n x inp p tr]. cbn in Hm.
  unfold Learner_one_batch, bind, get, modify, with_cancel_batch. cbn.
  unfold GeneratorCallback_before_batch, GatherInputsCallback_before_batch,
    SetInputsCallback_before_batch, bind, get, modify, lift, ret, raise. cbn.
  destruct m; [done|..]; cbn; eauto.
Qed.

(** X14: With the routing flag off, as [set_as_dict(False)] through any
    instance leaves it, the generation hook finds a list where it looks up
    keys: [predict] fails with a [TypeError] on its first batch, after the
    tokenizer call and without any call of the model or of the decoder. *)
Theorem predict_routing_off_TypeError (self : TransformersTranslator)
    (s : string) (l : list string) (t5_prefix : string)
    (mini_batch_size num_beams min_length max_length : Z)
    (early_stopping : bool) (kwargs : list (string * Z)) (w : World)
    (Hbs : 0 < mini_batch_size)
    (Hmodel : learn_model w <> _NoopModel)
    (Hcbs : learn_cbs w
            = [CudaCallback; SetInputsCallback false; GatherInputsCallback]) :
  (TransformersTranslator_predict self (Strs (s :: l)) t5_prefix mini_batch_size
     num_beams min_length max_length early_stopping kwargs w).1 = Raise TypeError
  /\ trace (TransformersTranslator_predict self (Strs (s :: l)) t5_prefix
              mini_batch_size num_beams min_length max_length early_stopping
              kwargs w).2
     = EvTokenize (tokenizer self) (prepared self (Strs (s :: l)) t5_prefix)
       :: trace w.
Proof.
  set (req := {| num_beams := num_beams; min_length := min_length;
                 max_length := max_length; early_stopping := early_stopping;
                 kwargs := kwargs |}).
  pose (after := fun (i a : Tensor) (w1 : World) =>
    (Learner_one_batch
       ([CudaCallback; SetInputsCallback false; GatherInputsCallback]
          ++ [GeneratorCallback req] ++ [GatherPredsCallback])%list
       [i; a] (set_n_inp 2 w1)).2).
  destruct (predict_first_batch_raises self s l t5_prefix mini_batch_size req
              false TypeError w after Hbs Hmodel Hcbs) as (i & a & Hp).
  { intros i a w1 Hm1 _. subst after. cbv beta.
    destruct (Learner_one_batch_list_xb req i a w1) as (w' & Hone & _);
      [by rewrite Hm1|]. by rewrite Hone. }
  match type of Hp with
  | _ = ?r =>
      assert (TransformersTranslator_predict self (Strs (s :: l)) t5_prefix
                mini_batch_size num_beams min_length max_length early_stopping
                kwargs w = r) as -> by exact Hp
  end.
  split; [reflexivity|]. cbn [snd]. subst after. cbv beta.
  destruct (Learner_one_batch_list_xb req i a
              (record (EvTokenize (tokenizer self)
                         (prepared self (Strs (s :: l)) t5_prefix)) w))
    as (w' & Hone & Htr); [exact Hmodel|].
  rewrite Hone. exact Htr.
Qed.

Lemma Learner_one_batch_generate_raises (req : GenerationRequest) (e : Exception)
    (i a : Tensor) (w : World) :
  learn_model w <> _NoopModel ->
  e <> CancelBatchException ->
  generate (learn_model w) i a req = Raise e ->
  exists w', Learner_one_batch
               ([CudaCallback; SetInputsCallback true; GatherInputsCallback]
                  ++ [GeneratorCallback req] ++ [GatherPredsCallback])%list
               [i; a] (set_n_inp 2 w) = (Raise e, w')
             /\ trace w' = EvGenerate (learn_model w) i a req :: trace w
             /\ learn_pred w' = learn_pred w.
Proof.
  intros Hm He Hgen. destruct w as [m cbs n x inp p tr]. cbn in Hm, Hgen.
  unfold Learner_one_batch, bind, get, modify, with_cancel_batch. cbn.
  unfold GeneratorCallback_before_batch, GatherInputsCallback_before_batch,
    SetInputsCallback_before_batch, bind, get, modify, lift, ret, raise. cbn.
  destruct m; [done|..]; cbn; rewrite Hgen; cbn; destruct e; try done; eauto.
Qed.

(** X15: An error of the generation call, other than the exception that ends
    a batch, is the outcome of [predict]: the run stops at its first
    batch, after one tokenizer call and one generation call; no
    prediction is stored and nothing is decoded. *)
Theorem predict_generation_error (self : TransformersTranslator)
    (s : string) (l : list string) (t5_prefix : string)
    (mini_batch_size num_beams min_length max_length : Z)
    (early_stopping : bool) (kwargs : list (string * Z)) (e : Exception)
    (w : World)
    (Hbs : 0 < mini_batch_size)
    (Hmodel : learn_model w <> _NoopModel)
    (Hcbs : learn_cbs w
            = [CudaCallback; SetInputsCallback true; GatherInputsCallback])
    (He : e <> CancelBatchException)
    (Hgen : forall i a,
        generate (learn_model w) i a
          {| num_beams := num_beams; min_length := min_length;
             max_length := max_length; early_stopping := early_stopping;
             kwargs := kwargs |} = Raise e) :
  (TransformersTranslator_predict self (Strs (s :: l)) t5_prefix mini_batch_size
     num_beams min_length max_length early_stopping kwargs w).1 = Raise e
  /\ (exists i a,
        trace (TransformersTranslator_predict self (Strs (s :: l)) t5_prefix
                 mini_batch_size num_beams min_length max_length early_stopping
                 kwargs w).2
        = EvGenerate (learn_model w) i a
            {| num_beams := num_beams; min_length := min_length;
               max_length := max_length; early_stopping := early_stopping;
               kwargs := kwargs |}
          :: EvTokenize (tokenizer self) (prepared self (Strs (s :: l)) t5_prefix)
          :: trace w)
  /\ learn_pred (TransformersTranslator_predict self (Strs (s :: l)) t5_prefix
                   mini_batch_size num_beams min_length max_length early_stopping
                   kwargs w).2
     = learn_pred w.
Proof.
  set (req := {| num_beams := num_beams; min_length := min_length;
                 max_length := max_length; early_stopping := early_stopping;
                 kwargs := kwargs |}) in *.
  pose (after := fun (i a : Tensor) (w1 : World) =>
    (Learner_one_batch
       ([CudaCallback; SetInputsCallback true; GatherInputsCallback]
          ++ [GeneratorCallback req] ++ [GatherPredsCallback])%list
       [i; a] (set_n_inp 2 w1)).2).
  destruct (predict_first_batch_raises self s l t5_prefix mini_batch_size req
              true e w after Hbs Hmodel Hcbs) as (i & a & Hp).
  { intros i a w1 Hm1 _. subst after. cbv beta.
    destruct (Learner_one_batch_generate_raises req e i a w1) as (w' & Hone & _);
      [by rewrite Hm1 | done | by rewrite Hm1 |]. by rewrite Hone. }
  match type of Hp with
  | _ = ?r =>
      assert (TransformersTranslator_predict self (Strs (s :: l)) t5_prefix
                mini_batch_size num_beams min_length max_length early_stopping
                kwargs w = r) as -> by exact Hp
  end.
  cbn [fst snd]. subst after. cbv beta.
  destruct (Learner_one_batch_generate_raises req e i a
              (record (EvTokenize (tokenizer self)
                         (prepared self (Strs (s :: l)) t5_prefix)) w))
    as (w' & Hone & Htr & Hpred); [exact Hmodel | done | apply Hgen |].
  rewrite Hone. cbn [snd]. split; [reflexivity|]. split; [|exact Hpred].
  exists i, a. exact Htr.
Qed.

End Failures.

(** ** Loading, and the registry of [EasyTranslator] *)

Section Registry.
Context {hf : Transformers}.

Lemma TransformersTranslator_load_Raise (name : string) (e : Exception) (w : World) :
  (TransformersTranslator_load name w).1 = Raise e ->
  TransformersTranslator_load name w = (Raise e, w).
Proof.
  unfold TransformersTranslator_load, bind, lift.
  destruct (AutoTokenizer_from_pretrained name) as [tok|e1]; [|by intros [= ->]].
  destruct (AutoModelForSeq2SeqLM_from_pretrained name) as [m|e2];
    [|by intros [= ->]].
  by rewrite TransformersTranslator_init_result.
Qed.

Lemma TransformersTranslator_load_Return (name : string) (t : TransformersTranslator)
    (w w1 : World) :
  TransformersTranslator_load name w = (Return t, w1) ->
  AutoTokenizer_from_pretrained name = Return (tokenizer t)
  /\ AutoModelForSeq2SeqLM_from_pretrained name = Return (model t)
  /\ w1 = (_BaseLearner_set_as_dict true
             (set_learn_model (model t)
                (record (EvInit (tokenizer t) (model t)) w))).2.
Proof.
  unfold TransformersTranslator_load, bind, lift.
  destruct (AutoTokenizer_from_pretrained name) as [tok|e1]; [|discriminate].
  destruct (AutoModelForSeq2SeqLM_from_pretrained name) as [m|e2]; [|discriminate].
  rewrite TransformersTranslator_init_result. by intros [= <- <-].
Qed.

(** X16: [load] is all or nothing on the shared learner.  When one of the two
    lookups fails the error is the outcome and the store is untouched;
    otherwise one translator is constructed from what the lookups gave,
    its model becomes the learner's model, whatever it was, and every
    [SetInputsCallback] of the learner routes a mapping. *)
Theorem load_all_or_nothing (name : string) (w : World) :
  match TransformersTranslator_load name w with
  | (Raise e, w') =>
      w' = w
      /\ (AutoTokenizer_from_pretrained name = Raise e
          \/ AutoModelForSeq2SeqLM_from_pretrained name = Raise e)
  | (Return t, w') =>
      AutoTokenizer_from_pretrained name = Return (tokenizer t)
      /\ AutoModelForSeq2SeqLM_from_pretrained name = Return (model t)
      /\ learn_model w' = model t
      /\ (forall f, SetInputsCallback f ∈ learn_cbs w' -> f = true)
      /\ length (learn_cbs w') = length (learn_cbs w)
      /\ trace w' = EvInit (tokenizer t) (model t) :: trace w
  end.
Proof.
  destruct (TransformersTranslator_load name w) as [[t|e] w'] eqn:Hload.
  - apply TransformersTranslator_load_Return in Hload as (Htok & Hm & ->).
    repeat split; try done.
    + intros f. cbn. rewrite list_elem_of_In, in_map_iff.
      intros ([] & Heq & _); congruence.
    + cbn. by rewrite length_map.
  - pose proof (TransformersTranslator_load_Raise name e w) as H.
    rewrite Hload in H. specialize (H eq_refl). injection H as ->.
    split; [done|]. revert Hload. unfold TransformersTranslator_load, bind, lift.
    destruct (AutoTokenizer_from_pretrained name) as [tok|e1];
      [|intros [= ->]; by left].
    destruct (AutoModelForSeq2SeqLM_from_pretrained name) as [m|e2];
      [|intros [= ->]; by right].
    by rewrite TransformersTranslator_init_result.
Qed.

(** X17: When the load fails, [translate] fails with the error of the load
    and runs nothing; the identifier is left bound to the false
    placeholder, so the next call with it tries the load again, and the
    other entries and the store are as they were. *)
Theorem translate_load_failure (self : EasyTranslator) (text : Text)
    (name : string) (t5_prefix : string)
    (mini_batch_size num_beams min_length max_length : Z)
    (early_stopping : bool) (kwargs : list (string * Z)) (e : Exception)
    (w : World)
    (Hfresh : default None (translators self !! name) = None)
    (Hload : (TransformersTranslator_load name w).1 = Raise e) :
  EasyTranslator_translate self text name t5_prefix mini_batch_size num_beams
    min_length max_length early_stopping kwargs w
  = ({| translators := <[name := None]> (translators self) |}, (Raise e, w)).
Proof.
  apply TransformersTranslator_load_Raise in Hload.
  unfold EasyTranslator_translate, defaultdict_getitem.
  destruct (translators self !! name) as [[t|]|] eqn:Hl; [discriminate| |];
    rewrite Hload; [|done].
  by rewrite insert_id.
Qed.

(** X18: [translate] never drops or replaces a loaded translator, and it
    touches no entry but the one of its identifier, whatever the outcome
    of the call. *)
Theorem translate_registry_stable (self : EasyTranslator) (text : Text)
    (name name' : string) (t5_prefix : string)
    (mini_batch_size num_beams min_length max_length : Z)
    (early_stopping : bool) (kwargs : list (string * Z)) (w : World) :
  (name' <> name ->
   translators (EasyTranslator_translate self text name t5_prefix mini_batch_size
                  num_beams min_length max_length early_stopping kwargs w).1
     !! name' = translators self !! name')
  /\ (forall t, translators self !! name' = Some (Some t) ->
        translators (EasyTranslator_translate self text name t5_prefix
                       mini_batch_size num_beams min_length max_length
                       early_stopping kwargs w).1 !! name' = Some (Some t)).
Proof.
  unfold EasyTranslator_translate, defaultdict_getitem.
  destruct (translators self !! name) as [[t0|]|] eqn:Hl;
    [|destruct (TransformersTranslator_load name w) as [[t1|e] w1]..];
    cbn [fst translators]; (split; [intros Hne|intros t Ht]);
    rewrite ?lookup_insert_ne by done; try done;
    destruct (decide (name' = name)) as [->|Hne];
    rewrite ?lookup_insert_ne by done; congruence.
Qed.

Lemma set_as_dict_generator_requests (R : GenerationRequest -> Prop) (f : bool)
    (w : World) :
  Forall (generator_requests R) (learn_cbs w) ->
  Forall (generator_requests R) (learn_cbs (_BaseLearner_set_as_dict f w).2).
Proof.
  cbn. intros H. apply Forall_map. eapply Forall_impl; [exact H|]. by intros [].
Qed.

(** X19: The registry keeps one translator per identifier but the learner is
    one: after a [translate] that loads [B], a [translate] with an
    identifier [A] loaded before runs the [predict] of [A]'s translator in
    a store whose learner holds [B]'s model, and every generation call it
    makes is on [B]'s model. *)
Theorem translate_generates_with_last_loaded (self : EasyTranslator)
    (A B : string) (tA tB : TransformersTranslator)
    (text1 text2 : Text) (prefix1 prefix2 : string)
    (bs1 bs2 beams1 beams2 min1 min2 max1 max2 : Z) (stop1 stop2 : bool)
    (kw1 kw2 : list (string * Z)) (w wB : World)
    (HA : translators self !! A = Some (Some tA))
    (HB : default None (translators self !! B) = None)
    (Hload : TransformersTranslator_load B w = (Return tB, wB))
    (Hcbs : Forall (generator_requests (fun _ => False)) (learn_cbs w)) :
  let first := EasyTranslator_translate self text1 B prefix1 bs1 beams1 min1
                 max1 stop1 kw1 w in
  let second := EasyTranslator_translate first.1 text2 A prefix2 bs2 beams2
                  min2 max2 stop2 kw2 first.2.2 in
  second.2 = TransformersTranslator_predict tA text2 prefix2 bs2 beams2 min2
               max2 stop2 kw2 first.2.2
  /\ learn_model first.2.2 = model tB
  /\ exists new,
       trace second.2.2 = (new ++ trace first.2.2)%list
       /\ Forall (generated_by (model tB)
                    {| num_beams := beams2; min_length := min2;
                       max_length := max2; early_stopping := stop2;
                       kwargs := kw2 |}) new.
Proof.
  intros first.
  assert (A <> B) as Hne by (intros ->; by rewrite HA in HB).
  assert (exists d,
    first = ({| translators := <[B := Some tB]> d |},
             TransformersTranslator_predict tB text1 prefix1 bs1 beams1 min1 max1
               stop1 kw1 wB)
    /\ d !! A = Some (Some tA)) as (d & Hfirst & HdA).
  { subst first. unfold EasyTranslator_translate, defaultdict_getitem.
    destruct (translators self !! B) as [[t'|]|] eqn:Hl; [discriminate| |];
      rewrite Hload; eexists; (split; [reflexivity|]);
      by rewrite ?lookup_insert_ne. }
  apply TransformersTranslator_load_Return in Hload as (_ & _ & HwB).
  assert (learn_model first.2.2 = model tB
          /\ Forall (generator_requests (fun _ => False)) (learn_cbs first.2.2))
    as [Hm Hc].
  { rewrite Hfirst. cbn [snd].
    destruct (predict_model_cbs tB text1 prefix1 bs1 beams1 min1 max1 stop1 kw1 wB)
      as [-> ->].
    rewrite HwB. split; [reflexivity|].
    by apply set_as_dict_generator_requests. }
  clearbody first. subst first. cbv zeta. cbn [fst snd] in *.
  unfold EasyTranslator_translate, defaultdict_getitem. cbn [translators].
  rewrite lookup_insert_ne by done. rewrite HdA. cbn [fst snd].
  split; [done|]. split; [done|].
  rewrite <- Hm. apply predict_generated_by.
  eapply Forall_impl; [exact Hc|]. by intros [].
Qed.

End Registry.

(** * More concrete runs *)

Lemma GatherInputsCallback_short_batch_witness :
  GatherInputsCallback_before_batch (set_xb (XbTuple [Mat [[7; 8]]]) bart_world)
  = (Raise IndexError, set_xb (XbTuple [Mat [[7; 8]]]) bart_world).
Proof.
  apply (GatherInputsCallback_short_batch _ [Mat [[7; 8]]]);
    [reflexivity | cbn; lia].
Defined.

Lemma GatherInputsCallback_long_batch_witness :
  GatherInputsCallback_before_batch four_world
  = (Return tt,
     set_inputs [("input_ids", Mat [[7; 8]]); ("attention_mask", Mat [[1; 1]]);
                 ("token_type_ids", Mat [[0; 0]])] four_world)
  /\ dict_values (gathered (Mat [[7; 8]]) (Mat [[1; 1]]) [Mat [[0; 0]]; Mat [[5; 5]]])
     = [Mat [[7; 8]]; Mat [[1; 1]]; Mat [[0; 0]]].
Proof.
  apply (GatherInputsCallback_long_batch four_world (Mat [[7; 8]]) (Mat [[1; 1]])
           [Mat [[0; 0]]; Mat [[5; 5]]]).
  reflexivity.
Defined.

Lemma gather_then_set_inputs_truncates_witness :
  learn_xb ((GatherInputsCallback_before_batch ;;
             SetInputsCallback_before_batch false) four_world).2
  = XbTuple [Mat [[7; 8]]; Mat [[1; 1]]; Mat [[0; 0]]].
Proof.
  rewrite (gather_then_set_inputs_truncates four_world (Mat [[7; 8]]) (Mat [[1; 1]])
             [Mat [[0; 0]]; Mat [[5; 5]]]); reflexivity.
Defined.

Lemma hooks_generate_from_first_two_witness :
  filter is_generate
    (trace (run_hooks (before_batch (hf := toy))
              [GatherInputsCallback; SetInputsCallback true; CudaCallback;
               GeneratorCallback greedy; GatherPredsCallback] four_world).2)
  = [EvGenerate (PreTrainedModel "bart") (Mat [[7; 8]]) (Mat [[1; 1]]) greedy].
Proof.
  rewrite (@hooks_generate_from_first_two toy greedy four_world (Mat [[7; 8]])
             (Mat [[1; 1]]) (Mat [[7; 8]]) [Mat [[0; 0]]; Mat [[5; 5]]]);
    [reflexivity | reflexivity | discriminate | reflexivity].
Defined.

Lemma predict_generates_with_learner_model_witness :
  exists new,
    trace (TransformersTranslator_predict (hf := toy) bart (Strs ["ab"; "cd"])
             "translate English to German" 1 1 0 128 true [] bart_world).2
    = (new ++ trace bart_world)%list
    /\ Forall (generated_by (learn_model bart_world) greedy) new.
Proof.
  apply (@predict_generates_with_learner_model toy bart (Strs ["ab"; "cd"])
           "translate English to German" 1 1 0 128 true [] bart_world).
  vm_compute. repeat constructor.
Defined.

Lemma predict_prefix_only_for_T5_witness :
  TransformersTranslator_predict (hf := toy) bart (Str "ab") "summarize" 32 1 0
    128 true [] bart_world
  = TransformersTranslator_predict (hf := toy) bart (Str "ab")
      "translate English to German" 32 1 0 128 true [] bart_world.
Proof.
  apply (@predict_prefix_only_for_T5 toy bart (Str "ab") "summarize"
           "translate English to German" 32 1 0 128 true [] bart_world).
  intros name. discriminate.
Defined.


Lemma predict_rejects_batch_size_witness :
  exists msg,
    TransformersTranslator_predict (hf := toy) bart (Strs ["ab"; "cd"])
      "translate English to German" 0 1 0 128 true [] _BaseLearner_init
    = (Raise (ValueError msg),
       record (EvTokenize (tokenizer bart)
                 (prepared bart (Strs ["ab"; "cd"]) "translate English to German"))
              _BaseLearner_init).
Proof.
  apply (@predict_rejects_batch_size toy bart (Strs ["ab"; "cd"])
           "translate English to German" 0 1 0 128 true [] _BaseLearner_init).
  lia.
Defined.

Lemma get_preds_empty_loader_witness :
  _BaseLearner_get_preds (hf := toy) (Some []) [GeneratorCallback greedy] bart_world
  = (Raise TypeError, bart_world).
Proof.
  apply (@get_preds_empty_loader toy [GeneratorCallback greedy] bart_world).
  - discriminate.
  - vm_compute. do 2 apply list_elem_of_further. apply list_elem_of_here.
Defined.

Lemma predict_routing_off_TypeError_witness :
  (TransformersTranslator_predict (hf := toy) bart (Strs ["ab"; "cd"])
     "translate English to German" 32 1 0 128 true [] unrouted_world).1
  = Raise TypeError
  /\ trace (TransformersTranslator_predict (hf := toy) bart (Strs ["ab"; "cd"])
              "translate English to German" 32 1 0 128 true [] unrouted_world).2
     = EvTokenize (tokenizer bart)
         (prepared bart (Strs ["ab"; "cd"]) "translate English to German")
       :: trace unrouted_world.
Proof.
  apply (@predict_routing_off_TypeError toy bart "ab" ["cd"]
           "translate English to German" 32 1 0 128 true [] unrouted_world);
    [lia | discriminate | reflexivity].
Defined.

Lemma predict_generation_error_witness :
  (TransformersTranslator_predict (hf := out_of_memory) bart (Strs ["ab"; "cd"])
     "translate English to German" 1 1 0 128 true [] bart_world).1
  = Raise (ExternalError "out of memory").
Proof.
  destruct (@predict_generation_error out_of_memory bart "ab" ["cd"]
              "translate English to German" 1 1 0 128 true []
              (ExternalError "out of memory") bart_world)
    as (Hout & _); [lia | discriminate | reflexivity | discriminate | reflexivity |].
  exact Hout.
Defined.

Lemma translate_load_failure_witness :
  EasyTranslator_translate (hf := toy) EasyTranslator_init (Str "hi") ""
    "translate English to German" 32 1 0 128 true [] _BaseLearner_init
  = ({| translators := <["" := None]> (translators EasyTranslator_init) |},
     (Raise (ExternalError "not found"), _BaseLearner_init)).
Proof.
  apply (@translate_load_failure toy EasyTranslator_init (Str "hi") ""
           "translate English to German" 32 1 0 128 true []
           (ExternalError "not found") _BaseLearner_init); reflexivity.
Defined.

Lemma translate_registry_stable_witness :
  translators
    (EasyTranslator_translate (hf := toy) easy_a.1 (Str "yo") "b"
       "translate English to German" 32 1 0 128 true [] easy_a.2.2).1 !! "a"
  = Some (Some {| tokenizer := PreTrainedTokenizer "a"; model := PreTrainedModel "a" |}).
Proof.
  apply (proj2 (@translate_registry_stable toy easy_a.1 (Str "yo") "b" "a"
                  "translate English to German" 32 1 0 128 true [] easy_a.2.2)).
  reflexivity.
Defined.

Lemma translate_generates_with_last_loaded_witness :
  learn_model
    (EasyTranslator_translate (hf := toy) easy_a.1 (Str "yo") "b"
       "translate English to German" 32 1 0 128 true [] easy_a.2.2).2.2
  = PreTrainedModel "b".
Proof.
  destruct (@translate_generates_with_last_loaded toy easy_a.1 "a" "b"
              {| tokenizer := PreTrainedTokenizer "a"; model := PreTrainedModel "a" |}
              {| tokenizer := PreTrainedTokenizer "b"; model := PreTrainedModel "b" |}
              (Str "yo") (Str "hi")
              "translate English to German" "translate English to German"
              32 32 1 1 0 0 128 128 true true [] [] easy_a.2.2
              (TransformersTranslator_load (hf := toy) "b" easy_a.2.2).2)
    as (_ & Hmodel & _);
    [reflexivity | reflexivity | reflexivity | vm_compute; repeat constructor |].
  exact Hmodel.
Defined.

Lemma load_all_or_nothing_witness :
  learn_model (TransformersTranslator_load (hf := toy) "t5-small" _BaseLearner_init).2
  = T5ForConditionalGeneration "t5-small".
Proof.
  pose proof (@load_all_or_nothing toy "t5-small" _BaseLearner_init) as H.
  vm_compute in H. destruct H as (_ & _ & H & _). vm_compute. exact H.
Defined.
